(** * peaclock: the configuration resolver of [peaclock/scripts/peaclockfunks.py]

    A shallow embedding of the resolver's functions and the properties its
    specification states about them.  The Configuration dict that every
    resolver step mutates in place, the file system and the two output streams
    are threaded through a state-and-exception monad; Python exceptions
    (including [SystemExit] raised by [sys.exit]) are results of the monad. *)

From Stdlib Require Import ZArith String Ascii List.
From stdpp Require Import gmap strings list pretty sorting.

Set Warnings "-register-all".
Open Scope string_scope.
Open Scope Z_scope.

(** ** Python values held by the Configuration *)

Inductive value : Type :=
  | VNone
  | VBool (b : bool)
  | VInt (n : Z)
  | VStr (s : string)
  | VList (l : list value)
  | VObject (name : string).   (* any other object, by the name it is bound to *)

(** Python truth value, as tested by [if arg:]. *)
Definition truthy (v : value) : bool :=
  match v with
  | VNone => false
  | VBool b => b
  | VInt n => negb (n =? 0)
  | VStr s => negb (String.eqb s "")
  | VList l => match l with [] => false | _ => true end
  | VObject _ => true
  end.

(** ** Exceptions *)

Inductive exn : Type :=
  | NameError (name : string)
  | KeyError (key : string)
  | IndexError
  | TypeError
  | AttributeError (attr : string)
  | FileNotFoundError (path : string)
  | FileExistsError (path : string)
  | NotADirectoryError (path : string)
  | ParseError (path : string)
  | SystemExit (code : Z).

Inductive result (A : Type) : Type :=
  | Ok (a : A)
  | Raise (e : exn).
Arguments Ok {A} a.
Arguments Raise {A} e.

(** ** Files, as the libraries that read them see them *)

Record SeqRecord := { rec_id : string; rec_seq : string }.

(** A CSV file as [csv.DictReader] yields it: the field names of the header
    line ([None] for an empty file) and one dict per row, field name to cell
    ([VNone] is the reader's [restval] for a short row). *)
Inductive content : Type :=
  | Yaml (doc : list (value * value))      (* mapping, in document order *)
  | Csv (fieldnames : option (list string)) (rows : list (gmap string value))
  | Fasta (records : list SeqRecord)
  | Blob.

(** ** The state the resolver runs in *)

Record state := State {
  config : gmap string value;      (* the Configuration dict *)
  dirs : gset string;              (* existing directories *)
  files : gmap string content;     (* existing regular files *)
  stdout : list string;
  stderr : list string }.

(** Read-only facts of the process environment. *)
Record env := Env {
  expanduser : string -> string;                  (* os.path.expanduser *)
  abspath : string -> string;                     (* os.path.abspath *)
  os_walk : string -> list (string * list string * list string);
  os_system : string -> Z;                        (* exit status of a command *)
  gettempdir : string;                            (* tempfile.gettempdir() *)
  tmp_names : list string }.                      (* candidate random names *)

Definition M (A : Type) : Type := state -> result A * state.

Definition ret {A} (a : A) : M A := fun st => (Ok a, st).
Definition raise {A} (e : exn) : M A := fun st => (Raise e, st).
Definition bind {A B} (m : M A) (k : A -> M B) : M B :=
  fun st => match m st with
            | (Ok a, st') => k a st'
            | (Raise e, st') => (Raise e, st')
            end.

Declare Scope py_scope.
Delimit Scope py_scope with py.
Notation "x <- m ;; k" := (bind m (fun x => k))
  (at level 100, m at next level, k at level 200, right associativity) : py_scope.
Notation "m ;;; k" := (bind m (fun _ => k))
  (at level 100, k at level 200, right associativity) : py_scope.
Open Scope py_scope.

Definition get_config : M (gmap string value) := fun st => (Ok (config st), st).
Definition put_config (c : gmap string value) : M unit :=
  fun st => (Ok tt, State c (dirs st) (files st) (stdout st) (stderr st)).

(** [config[key]] *)
Definition getitem (key : string) : M value :=
  c <- get_config ;;
  match c !! key with
  | Some v => ret v
  | None => raise (KeyError key)
  end.

(** [config[key] = v] *)
Definition setitem (key : string) (v : value) : M unit :=
  c <- get_config ;; put_config (<[key := v]> c).

(** [key in config] *)
Definition contains (key : string) : M bool :=
  c <- get_config ;; ret (bool_decide (is_Some (c !! key))).

Definition print (line : string) : M unit :=
  fun st => (Ok tt, State (config st) (dirs st) (files st) (stdout st ++ [line]) (stderr st)).
Definition stderr_write (text : string) : M unit :=
  fun st => (Ok tt, State (config st) (dirs st) (files st) (stdout st) (stderr st ++ [text])).
Definition sys_exit {A} (code : Z) : M A := raise (SystemExit code).

(** ** Strings, as the [str] methods the source calls *)

Definition startswith (s p : string) : bool := String.prefix p s.

Definition endswith (s p : string) : bool :=
  String.prefix (String.rev p) (String.rev s).

(** [s.replace(a, b)] for one-character [a] and [b]. *)
Fixpoint replace (a b : ascii) (s : string) : string :=
  match s with
  | EmptyString => EmptyString
  | String c s' => String (if Ascii.eqb c a then b else c) (replace a b s')
  end.

(** [s.lstrip(a)] for a one-character set [a]. *)
Fixpoint lstrip (a : ascii) (s : string) : string :=
  match s with
  | EmptyString => EmptyString
  | String c s' => if Ascii.eqb c a then lstrip a s' else s
  end.

Definition lower_ascii (c : ascii) : ascii :=
  let n := nat_of_ascii c in
  if (65 <=? n)%nat && (n <=? 90)%nat then ascii_of_nat (n + 32) else c.

Fixpoint lower (s : string) : string :=
  match s with
  | EmptyString => EmptyString
  | String c s' => String (lower_ascii c) (lower s')
  end.

(** [sep.join(l)] *)
Fixpoint join (sep : string) (l : list string) : string :=
  match l with
  | [] => ""
  | [x] => x
  | x :: l' => x ++ sep ++ join sep l'
  end.

(** [os.path.join(a, b)] of posixpath. *)
Definition os_path_join (a b : string) : string :=
  if startswith b "/" then b
  else if String.eqb a "" || endswith a "/" then a ++ b
  else a ++ "/" ++ b.

(** [os.path.dirname(p)] of posixpath: the head up to the last slash, its
    trailing slashes removed unless it consists of slashes only. *)
Fixpoint rstrip_slash_rev (r : string) : string :=
  match r with
  | String "/" r' => rstrip_slash_rev r'
  | _ => r
  end.
Fixpoint drop_to_slash_rev (r : string) : string :=
  match r with
  | EmptyString => EmptyString
  | String "/" _ => r
  | String _ r' => drop_to_slash_rev r'
  end.
Definition os_path_dirname (p : string) : string :=
  let head := drop_to_slash_rev (String.rev p) in
  match rstrip_slash_rev head with
  | EmptyString => String.rev head
  | r => String.rev r
  end.

(** ANSI colour helpers. *)
Definition ESC : string := String (ascii_of_nat 27) "".
Definition END_FORMATTING : string := ESC ++ "[0m".
Definition GREEN : string := ESC ++ "[32m".
Definition CYAN : string := ESC ++ "[36m".
Definition cyan (text : string) : string := CYAN ++ text ++ END_FORMATTING.
Definition green (text : string) : string := GREEN ++ text ++ END_FORMATTING.

(** [repr(v)] and [str(v)], as an f-string interpolates a value (string
    escapes are not modelled). *)
Fixpoint py_repr (v : value) : string :=
  match v with
  | VNone => "None"
  | VBool true => "True"
  | VBool false => "False"
  | VInt n => pretty n
  | VStr s => "'" ++ s ++ "'"
  | VList l => "[" ++ join ", " (map py_repr l) ++ "]"
  | VObject name => "<" ++ name ++ ">"
  end.

Definition py_str (v : value) : string :=
  match v with
  | VStr s => s
  | _ => py_repr v
  end.

Definition NL : string := String (ascii_of_nat 10) "".

(** A [str] is required where the source hands a value to [os.path]. *)
Definition as_str (v : value) : M string :=
  match v with
  | VStr s => ret s
  | _ => raise TypeError
  end.

(** ** The file system *)

Definition os_path_exists (p : string) : M bool :=
  fun st => (Ok (bool_decide (p ∈ dirs st) || bool_decide (is_Some (files st !! p))), st).

Definition os_path_isfile (p : string) : M bool :=
  fun st => (Ok (bool_decide (is_Some (files st !! p))), st).

(** [os.mkdir(p)]; the parent directory is taken to exist. *)
Definition os_mkdir (p : string) : M unit :=
  fun st =>
    if bool_decide (p ∈ dirs st) || bool_decide (is_Some (files st !! p))
    then (Raise (FileExistsError p), st)
    else (Ok tt, State (config st) ({[p]} ∪ dirs st) (files st) (stdout st) (stderr st)).

Definition open_file (p : string) : M content :=
  fun st => match files st !! p with
            | Some c => (Ok c, st)
            | None => (Raise (FileNotFoundError p), st)
            end.

(** [shutil.rmtree(p)]: [p] and everything below it disappears. *)
Definition below (p q : string) : bool := String.eqb q p || startswith q (p ++ "/").

Definition rmtree (p : string) : M unit :=
  fun st => (Ok tt, State (config st)
                          (filter (fun q => below p q = false) (dirs st))
                          (filter (fun kv => below p kv.1 = false) (files st))
                          (stdout st) (stderr st)).

(** ** [tempfile.TemporaryDirectory]

    [mkdtemp] tries the candidate names in turn and creates the first
    directory [dir/tmp<name>] that does not exist yet.  The object owns the
    directory: when the object is destroyed its finalizer removes the
    directory from the file system. *)

Record TemporaryDirectory := { name : string }.

Fixpoint first_free (taken : string -> bool) (dir : string) (names : list string)
  : option string :=
  match names with
  | [] => None
  | n :: names' =>
      let file := os_path_join dir ("tmp" ++ n) in
      if taken file then first_free taken dir names' else Some file
  end.

Definition mkdtemp (e : env) (dir : option string) : M string :=
  fun st =>
    let d := match dir with Some d => d | None => gettempdir e end in
    if bool_decide (d ∈ dirs st) then
      match first_free
              (fun p => bool_decide (p ∈ dirs st) || bool_decide (is_Some (files st !! p)))
              d (tmp_names e) with
      | Some file =>
          (Ok file, State (config st) ({[file]} ∪ dirs st) (files st) (stdout st) (stderr st))
      | None => (Raise (FileExistsError d), st)
      end
    else if bool_decide (is_Some (files st !! d)) then (Raise (NotADirectoryError d), st)
    else (Raise (FileNotFoundError d), st).

Definition new_TemporaryDirectory (e : env) (dir : option string) : M TemporaryDirectory :=
  n <- mkdtemp e dir ;; ret {| name := n |}.

Definition cleanup (t : TemporaryDirectory) : M unit := rmtree (name t).

(** Leaving a function drops its local variables.  A [TemporaryDirectory]
    that only a local variable refers to is destroyed at that point, and its
    finalizer runs. *)
Definition drop_local (local : option TemporaryDirectory) : M unit :=
  match local with
  | Some t => cleanup t
  | None => ret tt
  end.

(** ** Names bound at module level

    The imports, the colour constants and the functions of the module, each
    object represented by its name.  A name that is neither bound here nor a
    local nor a builtin raises [NameError] when it is evaluated. *)

Definition module_globals : gmap string value :=
  list_to_map
    ((fun n => (n, VObject n)) <$>
       ["os"; "argparse"; "csv"; "sys"; "SeqIO"; "datetime"; "date"; "tempfile";
        "pkg_resources"; "yaml";
        "END_FORMATTING"; "BOLD"; "UNDERLINE"; "RED"; "GREEN"; "YELLOW"; "CYAN"; "DIM";
        "get_defaults"; "add_arg_to_config"; "look_for_config"; "parse_yaml_file";
        "make_timestamped_outdir"; "get_outdir"; "get_temp_dir";
        "get_read_length_filter"; "get_package_data"; "look_for_guppy_barcoder";
        "look_for_basecalled_reads"; "look_for_barcodes_csv"; "check_barcode_kit";
        "get_snakefile"; "make_cpg_header"; "colour"; "red"; "cyan"; "green";
        "yellow"; "bold_underline"]).

Definition load_global (n : string) : M value :=
  match module_globals !! n with
  | Some v => ret v
  | None => raise (NameError n)
  end.

(** [obj.meth(args)] for an object bound at module level: none of them is a
    module that exports the resolver's own functions, so the attribute
    lookup fails. *)
Definition call_method (obj : value) (meth : string) (args : list value) : M unit :=
  raise (AttributeError meth).

(** ** The resolver *)

Definition get_defaults : gmap string value :=
  list_to_map
    [("no_temp", VBool false);
     ("demultiplex", VBool false);
     ("path_to_guppy", VBool false);
     ("output_prefix", VStr "peaclock");
     ("species", VStr "apodemus");
     ("barcodes", VStr "native");
     ("configfile", VStr "config.yaml");
     ("allowed_species", VList [VStr "apodemus"; VStr "mus"; VStr "phalacrocorax"]);
     ("force", VBool true)].

Definition add_arg_to_config (key : string) (arg : value) : M unit :=
  if truthy arg then setitem key arg else ret tt.

Definition look_for_config (e : env) (configfile_arg : value) (cwd : string) : M string :=
  if truthy configfile_arg then
    a <- as_str configfile_arg ;;
    let configfile := os_path_join cwd a in
    input_file <- load_global "input_file" ;;
    i <- as_str input_file ;;
    let path_to_file := abspath e (os_path_dirname i) in
    setitem "path_to_config" (VStr path_to_file) ;;;
    isf <- os_path_isfile configfile ;;
    if isf : bool then
      setitem "configfile" (VStr configfile) ;;;
      ret configfile
    else
      stderr_write (cyan ("Error: cannot find configfile at " ++ configfile ++ NL)) ;;;
      sys_exit (-1)
  else
    let configfile := os_path_join cwd "config.yaml" in
    setitem "path_to_config" (VStr cwd) ;;;
    isf <- os_path_isfile configfile ;;
    if isf : bool then
      setitem "configfile" (VStr configfile) ;;;
      ret configfile
    else
      let configfile := "" in
      print (cyan ("Note: cannot find configfile at " ++ configfile)) ;;;
      ret configfile.

Definition yaml_load (p : string) : M (list (value * value)) :=
  c <- open_file p ;;
  match c with
  | Yaml doc => ret doc
  | _ => raise (ParseError p)
  end.

Definition snakecase (key : string) : string :=
  lstrip "-" (replace "-" "_" key).

Fixpoint merge_keys (input_config : list (value * value)) : M unit :=
  match input_config with
  | [] => ret tt
  | (VStr key, v) :: rest =>
      setitem (snakecase key) v ;;;
      merge_keys rest
  | _ :: _ => raise (AttributeError "replace")
  end.

Definition parse_yaml_file (configfile : string) : M unit :=
  input_config <- yaml_load configfile ;;
  merge_keys input_config.

(** The body of [get_temp_dir]: its result and the [TemporaryDirectory] its
    local variable [temporary_directory] is bound to, when a branch binds it. *)
Definition get_temp_dir_body (e : env) (tempdir_arg no_temp_arg : value) (cwd : string)
  : M (value * option TemporaryDirectory) :=
  outdir <- getitem "outdir" ;;
  r <- (if truthy no_temp_arg then
          print (green "--no-temp:" ++ " All intermediate files will be written to "
                 ++ py_str outdir) ;;;
          setitem "no_temp" no_temp_arg ;;;
          ret (outdir, None)
        else
          no_temp <- getitem "no_temp" ;;
          if truthy no_temp then
            print (green "--no-temp:" ++ " All intermediate files will be written to "
                   ++ py_str outdir) ;;;
            ret (outdir, None)
          else if truthy tempdir_arg then
            a <- as_str tempdir_arg ;;
            let to_be_dir := os_path_join cwd (expanduser e a) in
            ex <- os_path_exists to_be_dir ;;
            (if ex : bool then ret tt else os_mkdir to_be_dir) ;;;
            temporary_directory <- new_TemporaryDirectory e (Some to_be_dir) ;;
            ret (VStr (name temporary_directory), Some temporary_directory)
          else
            has <- contains "tempdir" ;;
            if has : bool then
              v <- getitem "tempdir" ;;
              a <- as_str v ;;
              let to_be_dir := os_path_join cwd (expanduser e a) in
              ex <- os_path_exists to_be_dir ;;
              (if ex : bool then ret tt else os_mkdir to_be_dir) ;;;
              temporary_directory <- new_TemporaryDirectory e (Some to_be_dir) ;;
              ret (VStr (name temporary_directory), Some temporary_directory)
            else
              temporary_directory <- new_TemporaryDirectory e None ;;
              ret (VStr (name temporary_directory), Some temporary_directory)) ;;
  setitem "tempdir" (fst r) ;;;
  ret r.

(** [get_temp_dir] returns the path only; the object stays behind in the
    frame and goes with it. *)
Definition get_temp_dir (e : env) (tempdir_arg no_temp_arg : value) (cwd : string)
  : M value :=
  r <- get_temp_dir_body e tempdir_arg no_temp_arg cwd ;;
  drop_local (snd r) ;;;
  ret (fst r).

(** [SeqIO.parse(path, "fasta")] *)
Definition SeqIO_parse (v : value) : M (list SeqRecord) :=
  p <- as_str v ;;
  c <- open_file p ;;
  match c with
  | Fasta records => ret records
  | _ => raise (ParseError p)
  end.

Definition len (r : SeqRecord) : Z := Z.of_nat (String.length (rec_seq r)).

Definition sorted (l : list Z) : list Z := merge_sort Z.le l.

(** [l[0]] and [l[-1]] *)
Definition first_item (l : list Z) : M Z :=
  match l with
  | x :: _ => ret x
  | [] => raise IndexError
  end.
Definition last_item (l : list Z) : M Z :=
  match last l with
  | Some x => ret x
  | None => raise IndexError
  end.

Definition get_read_length_filter : M unit :=
  genes <- getitem "genes" ;;
  records <- SeqIO_parse genes ;;
  let lengths := sorted (len <$> records) in
  lo <- first_item lengths ;;
  setitem "min_length" (VInt lo) ;;;
  hi <- last_item lengths ;;
  setitem "max_length" (VInt (hi + 200)).

Definition look_for_guppy_barcoder (e : env) (demultiplex_arg path_to_guppy_arg : value)
    (cwd : string) : M unit :=
  qcfunk <- load_global "qcfunk" ;;
  call_method qcfunk "add_arg_to_config" [demultiplex_arg; VStr "demultiplex"] ;;;
  qcfunk <- load_global "qcfunk" ;;
  call_method qcfunk "add_arg_to_config" [path_to_guppy_arg; VStr "path_to_guppy"] ;;;
  demultiplex <- getitem "demultiplex" ;;
  if truthy demultiplex then
    g <- getitem "path_to_guppy" ;;
    if truthy g then
      a <- as_str g ;;
      let path_to_guppy :=
        os_path_join (os_path_join cwd (expanduser e a)) "guppy_barcoder" in
      if os_system e path_to_guppy =? 0 then ret tt
      else
        stderr_write (cyan ("Error: guppy_barcoder at " ++ path_to_guppy
                            ++ " fails to run" ++ NL)) ;;;
        sys_exit (-1)
    else
      stderr_write (cyan ("Error: please provide the path to guppy_barcoder or run "
                          ++ "demultiplexing in MinKNOW" ++ NL)) ;;;
      sys_exit (-1)
  else ret tt.

(** The counting loop over [os.walk(read_path)]. *)
Definition is_fastq_name (fn : string) : bool :=
  let filename := lower fn in
  endswith filename ".fastq" || endswith filename ".fq".

Definition count_fastq (walk : list (string * list string * list string)) : Z :=
  fold_left
    (fun fq_files rdf =>
       fold_left (fun fq_files fn => if is_fastq_name fn then fq_files + 1 else fq_files)
                 (snd rdf) fq_files)
    walk 0.

Definition look_for_basecalled_reads (e : env) (read_path_arg : value) (cwd : string)
  : M unit :=
  if truthy read_path_arg then
    a <- as_str read_path_arg ;;
    let read_path := os_path_join cwd (expanduser e a) in
    ex <- os_path_exists read_path ;;
    if ex : bool then setitem "read_path" (VStr read_path)
    else
      stderr_write (cyan ("Error: cannot find reads at " ++ read_path ++ NL)) ;;;
      sys_exit (-1)
  else
    has <- contains "read_path" ;;
    if has : bool then
      v <- getitem "read_path" ;;
      if truthy v then
        a <- as_str v ;;
        ptc <- getitem "path_to_config" ;;
        p <- as_str ptc ;;
        let read_path := os_path_join p (expanduser e a) in
        let fq_files := count_fastq (os_walk e read_path) in
        if 0 <? fq_files then
          print ("Found " ++ pretty fq_files ++ " fastq files in the input directory")
        else
          stderr_write (cyan ("Error: cannot find fastq files at " ++ read_path ++ NL
                              ++ "Please check your `--read-dir`")) ;;;
          sys_exit (-1)
      else ret tt
    else
      stderr_write (cyan ("Error: `--read-dir` needed. Please input the path to the "
                          ++ "fastq read files either in the config file or via the "
                          ++ "command line." ++ NL)) ;;;
      sys_exit (-1).

(** [csv.DictReader(open(path))] *)
Definition csv_DictReader (p : string)
  : M (option (list string) * list (gmap string value)) :=
  c <- open_file p ;;
  match c with
  | Csv fieldnames rows => ret (fieldnames, rows)
  | _ => raise (ParseError p)
  end.

(** The loop over the rows: [barcodes] is the list built so far. *)
Fixpoint collect_barcodes (rows : list (gmap string value)) (barcodes : list string)
  : M (list string) :=
  match rows with
  | [] => ret barcodes
  | row :: rows' =>
      match row !! "barcode" with
      | None => raise (KeyError "barcode")
      | Some (VStr b) =>
          if startswith b "NB" || startswith b "BC" then
            collect_barcodes rows' (barcodes ++ [b])
          else
            stderr_write ("Error: Please provide barcodes in the format `NB01` or `BC01`"
                          ++ NL) ;;;
            sys_exit (-1)
      | Some _ => raise (AttributeError "startswith")
      end
  end.

Fixpoint print_items (l : list string) : M unit :=
  match l with
  | [] => ret tt
  | i :: l' => print ("  - " ++ i) ;;; print_items l'
  end.

(** The local variables of [look_for_barcodes_csv] when its body ends;
    [barcodes] is bound only when a CSV file was read. *)
Record barcodes_locals := {
  loc_barcodes_csv : string;
  loc_barcodes : option string }.

Definition look_for_barcodes_csv_body (e : env) (barcodes_csv_arg : value) (cwd : string)
  : M barcodes_locals :=
  barcodes_csv <-
    (if truthy barcodes_csv_arg then
       a <- as_str barcodes_csv_arg ;;
       let barcodes_csv := os_path_join cwd a in
       ex <- os_path_exists barcodes_csv ;;
       if ex : bool then ret barcodes_csv
       else
         stderr_write ("Error: cannot find barcodes csv at " ++ barcodes_csv ++ NL) ;;;
         sys_exit (-1)
     else
       has <- contains "barcodes_csv" ;;
       if has : bool then
         v <- getitem "barcodes_csv" ;;
         if truthy v then
           a <- as_str v ;;
           ptc <- getitem "path_to_config" ;;
           p <- as_str ptc ;;
           ret (os_path_join p (expanduser e a))
         else
           setitem "barcodes_csv" (VStr "") ;;;
           ret ""
       else
         setitem "barcodes_csv" (VStr "") ;;;
         ret "") ;;
  print ("Input barcodes csv file: " ++ barcodes_csv) ;;;
  if truthy (VStr barcodes_csv) then
    reader <- csv_DictReader barcodes_csv ;;
    match fst reader with
    | None => raise TypeError
    | Some column_names =>
        if bool_decide ("barcode" ∈ column_names) then
          barcodes <- collect_barcodes (snd reader) [] ;;
          print (pretty (Z.of_nat (length barcodes)) ++ " barcodes read in from file") ;;;
          print_items barcodes ;;;
          let barcodes := join "," barcodes in
          ret {| loc_barcodes_csv := barcodes_csv; loc_barcodes := Some barcodes |}
        else
          stderr_write ("Error: Barcode file missing header field `barcode`" ++ NL) ;;;
          sys_exit (-1)
    end
  else
    let barcodes_csv := "" in
    print (green "No barcodes csv file input") ;;;
    ret {| loc_barcodes_csv := barcodes_csv; loc_barcodes := None |}.

(** The function has no [return] statement and stores neither local: the
    caller receives [None] and the state the body leaves. *)
Definition look_for_barcodes_csv (e : env) (barcodes_csv_arg : value) (cwd : string)
  : M value :=
  look_for_barcodes_csv_body e barcodes_csv_arg cwd ;;;
  ret VNone.

(** ** The barcode format of the specification's data model

    [NB\d+] or [BC\d+]: the prefix, then one or more decimal digits and
    nothing else.  This predicate follows the specification; the check the
    source performs is in [collect_barcodes]. *)

Definition is_digit (c : ascii) : bool :=
  let n := nat_of_ascii c in (48 <=? n)%nat && (n <=? 57)%nat.

Fixpoint all_digits (s : string) : bool :=
  match s with
  | EmptyString => true
  | String c s' => is_digit c && all_digits s'
  end.

Definition barcode_pattern (s : string) : bool :=
  match s with
  | String "N" (String "B" (String c r)) => is_digit c && all_digits r
  | String "B" (String "C" (String c r)) => is_digit c && all_digits r
  | _ => false
  end.

(** What the source checks: the two-letter prefix. *)
Definition has_barcode_prefix (b : string) : Prop :=
  startswith b "NB" = true \/ startswith b "BC" = true.

(** ** Concrete runs

    A process in [/work] with the system temporary directory [/tmp]; no path
    below starts with [~], so [expanduser] leaves them as they are. *)

Definition posix_env : env :=
  {| expanduser := fun p => p;
     abspath := fun p => p;
     os_walk := fun top =>
       if String.eqb top "/work/reads"
       then [("/work/reads", ["pass"], ["summary.txt"]);
             ("/work/reads/pass", [], ["a.fastq"; "b.FQ"; "c.fastq.gz"])]
       else [];
     os_system := fun _ => 0;
     gettempdir := "/tmp";
     tmp_names := ["a1b2c3d4"; "e5f6g7h8"] |}.

Definition seq_of_length (n : nat) : string :=
  string_of_list_ascii (repeat "A"%char n).

Definition barcode_row (b : string) : gmap string value :=
  {[ "barcode" := VStr b ]}.

Definition work_files : gmap string content :=
  list_to_map
    [("/work/my_config.yaml", Yaml [(VStr "--read-dir", VStr "reads")]);
     ("/work/barcodes.csv",
      Csv (Some ["barcode"]) [barcode_row "NB01"; barcode_row "NB02"; barcode_row "BC03"]);
     ("/work/genes.fasta",
      Fasta [ {| rec_id := "gene1"; rec_seq := seq_of_length 220 |};
              {| rec_id := "gene2"; rec_seq := seq_of_length 180 |} ]);
     ("/work/empty.fasta", Fasta [])].

(** The state once the defaults are loaded. *)
Definition initial_state : state :=
  {| config := get_defaults;
     dirs := {[ "/tmp"; "/work"; "/work/reads"; "/work/reads/pass" ]};
     files := work_files;
     stdout := [];
     stderr := [] |}.

(** The state once the output directory and the species data are resolved. *)
Definition resolved_state : state :=
  {| config := <["genes" := VStr "/work/genes.fasta"]>
                 (<["outdir" := VStr "/work/out"]>
                    (<["path_to_config" := VStr "/work"]> get_defaults));
     dirs := {[ "/tmp"; "/work"; "/work/out"; "/work/reads"; "/work/reads/pass" ]};
     files := work_files;
     stdout := [];
     stderr := [] |}.

Definition with_config (c : gmap string value) (st : state) : state :=
  State c (dirs st) (files st) (stdout st) (stderr st).

(** ** The rest of the resolver *)

(** [sub in s] for strings. *)
Fixpoint contains_str (sub s : string) : bool :=
  String.prefix sub s ||
  match s with
  | EmptyString => false
  | String _ s' => contains_str sub s'
  end.

(** [s.replace(old, new)] for a non-empty [old]: the occurrences are
    replaced from the left and do not overlap.  [skip] counts the characters
    of an occurrence still to be passed over. *)
Fixpoint str_replace_from (old new : string) (skip : nat) (s : string) : string :=
  match s with
  | EmptyString => EmptyString
  | String c s' =>
      match skip with
      | S k => str_replace_from old new k s'
      | O =>
          if String.prefix old s
          then new ++ str_replace_from old new (String.length old - 1) s'
          else String c (str_replace_from old new 0 s')
      end
  end.
Definition str_replace (old new s : string) : string := str_replace_from old new 0 s.

(** [s.split(sep)] for a one-character [sep]: never the empty list. *)
Fixpoint split (sep : ascii) (s : string) : list string :=
  match s with
  | EmptyString => [""]
  | String c s' =>
      if Ascii.eqb c sep then "" :: split sep s'
      else match split sep s' with
           | x :: xs => String c x :: xs
           | [] => [String c ""]
           end
  end.

(** [x == y] *)
Fixpoint value_eqb (x y : value) : bool :=
  match x, y with
  | VNone, VNone => true
  | VBool a, VBool b => Bool.eqb a b
  | VBool a, VInt n => (if a then 1 else 0) =? n
  | VInt n, VBool a => n =? (if a then 1 else 0)
  | VInt a, VInt b => a =? b
  | VStr a, VStr b => String.eqb a b
  | VList a, VList b =>
      (fix go (a b : list value) : bool :=
         match a, b with
         | [], [] => true
         | u :: a', v :: b' => value_eqb u v && go a' b'
         | _, _ => false
         end) a b
  | VObject a, VObject b => String.eqb a b
  | _, _ => false
  end.

(** [x in container] *)
Definition py_in (x container : value) : M bool :=
  match container with
  | VList l => ret (existsb (value_eqb x) l)
  | VStr s =>
      match x with
      | VStr sub => ret (contains_str sub s)
      | _ => raise TypeError
      end
  | _ => raise TypeError
  end.

(** What the resolver asks of the clock and of the installed package. *)
Record host := Host {
  now_isoformat : string;     (* datetime.now().isoformat(timespec='milliseconds') *)
  today_ymd : string;         (* date.today().strftime("%Y-%m-%d") *)
  relpath : string -> string -> string;             (* os.path.relpath *)
  resource_filename : string -> string -> string }. (* pkg_resources.resource_filename *)


(** [v.split("_")] needs a [str]. *)
Definition as_prefix (v : value) : M string :=
  match v with
  | VStr s => ret s
  | _ => raise (AttributeError "split")
  end.

Definition timestamp_of (iso : string) : string :=
  str_replace "T" "-" (str_replace "." "" (str_replace ":" "" iso)).



Definition get_package_data (h : host) (thisdir : string) (species_arg : value) : M unit :=
  let matrix_file := resource_filename h "peaclock" "substitution_matrix.txt" in
  setitem "matrix_file" (VStr matrix_file) ;;;
  add_arg_to_config "species" species_arg ;;;
  species <- getitem "species" ;;
  allowed <- getitem "allowed_species" ;;
  ok <- py_in species allowed ;;
  if ok : bool then
    let sp := py_str species in
    let cpg_sites := resource_filename h "peaclock" ("data/" ++ sp ++ "/cpg_sites.csv") in
    let genes := resource_filename h "peaclock" ("data/" ++ sp ++ "/genes.fasta") in
    let primer_sequences :=
      resource_filename h "peaclock" ("data/" ++ sp ++ "/primer_sequences.csv") in
    setitem "cpg_sites" (VStr cpg_sites) ;;;
    setitem "genes" (VStr genes) ;;;
    setitem "primer_sequences" (VStr primer_sequences)
  else
    stderr_write (cyan ("Error: " ++ py_str species
                        ++ " specified not configured in PEAClock" ++ NL
                        ++ "Please select an alternative species" ++ NL)) ;;;
    sys_exit (-1).

Definition get_snakefile (thisdir : string) : M string :=
  let snakefile := os_path_join (os_path_join thisdir "scripts") "Snakefile" in
  ex <- os_path_exists snakefile ;;
  if ex : bool then ret snakefile
  else
    stderr_write (cyan ("Error: cannot find Snakefile at " ++ snakefile ++ NL
                        ++ " Check installation" ++ NL)) ;;;
    sys_exit (-1).



(** The remaining colour constants and helpers. *)
Definition BOLD : string := ESC ++ "[1m".
Definition UNDERLINE : string := ESC ++ "[4m".
Definition RED : string := ESC ++ "[31m".
Definition YELLOW : string := ESC ++ "[93m".
Definition DIM : string := ESC ++ "[2m".

(** The style string once [colour] has removed the modifiers, underscores
    and blanks and lowered the rest. *)
Definition colour_name (text_colour : string) : string :=
  lower (str_replace " " "" (str_replace "_" ""
           (str_replace "underline" "" (str_replace "bold" "" text_colour)))).

Definition colour (text text_colour : string) : string :=
  let bold_text := contains_str "bold" text_colour in
  let text_colour1 := str_replace "bold" "" text_colour in
  let underline_text := contains_str "underline" text_colour1 in
  let text_colour2 := str_replace "underline" "" text_colour1 in
  let text_colour3 := str_replace "_" "" text_colour2 in
  let text_colour4 := str_replace " " "" text_colour3 in
  let text_colour5 := lower text_colour4 in
  let coloured_text :=
    if contains_str "red" text_colour5 then RED
    else if contains_str "green" text_colour5 then GREEN
    else if contains_str "yellow" text_colour5 then YELLOW
    else if contains_str "dim" text_colour5 then DIM
    else if contains_str "cyan" text_colour5 then "cyan"
    else "" in
  let coloured_text := if bold_text then coloured_text ++ BOLD else coloured_text in
  let coloured_text := if underline_text then coloured_text ++ UNDERLINE else coloured_text in
  if String.eqb coloured_text "" then text
  else coloured_text ++ text ++ END_FORMATTING.

Definition red (text : string) : string := RED ++ text ++ END_FORMATTING.
Definition yellow (text : string) : string := YELLOW ++ text ++ END_FORMATTING.
Definition bold_underline (text : string) : string :=
  BOLD ++ UNDERLINE ++ text ++ END_FORMATTING.



(** A parsed document whose keys are all strings, and the insertion each of
    its entries amounts to. *)
Definition yaml_doc (kvs : list (string * value)) : list (value * value) :=
  (fun kv => (VStr kv.1, kv.2)) <$> kvs.

Definition merge_entry (c : gmap string value) (kv : string * value) : gmap string value :=
  <[snakecase kv.1 := kv.2]> c.

(** The value the file gives for a stored key: that of the last entry whose
    key normalises to it. *)
Definition file_value (key : string) (kvs : list (string * value)) : option value :=
  foldl (fun acc kv => if String.eqb (snakecase kv.1) key then Some kv.2 else acc) None kvs.

(** ** Further concrete runs *)

Definition posix_host : host :=
  {| now_isoformat := "2024-05-17T09:30:15.123";
     today_ymd := "2024-05-17";
     relpath := fun path start =>
       if startswith path (start ++ "/")
       then substring (String.length start + 1) (String.length path) path
       else path;
     resource_filename := fun package resource =>
       "/opt/site-packages/" ++ package ++ "/" ++ resource |}.

Definition cpg_row (gene position : string) : gmap string value :=
  {[ "gene" := VStr gene; "position(1-based)" := VStr position ]}.

Definition more_files : gmap string content :=
  list_to_map
    [("/work/run.yaml",
      Yaml (yaml_doc [("species", VStr "mus"); ("read-dir", VStr "first");
                      ("read_dir", VStr "second"); ("output-prefix", VStr "run")]));
     ("/work/odd.yaml", Yaml [(VStr "species", VStr "mus"); (VInt 7, VStr "seven")]);
     ("/work/samples.csv",
      Csv (Some ["sample"; "id"]) [ {[ "sample" := VStr "s1"; "id" := VStr "NB01" ]} ]);
     ("/work/cpg_sites.csv",
      Csv (Some ["gene"; "position(1-based)"])
          [cpg_row "Prima1" "10"; cpg_row "HSF4" "25"]);
     ("/work/genes.fasta",
      Fasta [ {| rec_id := "gene2"; rec_seq := seq_of_length 180 |};
              {| rec_id := "gene1"; rec_seq := seq_of_length 220 |} ])].

Definition with_files (f : gmap string content) (st : state) : state :=
  State (config st) (dirs st) f (stdout st) (stderr st).

(** * Properties *)

Ltac unfold_monad :=
  repeat progress
    (unfold bind, ret, raise, sys_exit, getitem, setitem, contains, get_config,
       put_config, print, stderr_write, as_str, open_file; cbv beta iota).

(** ** Override application: [add_arg_to_config] *)

Lemma add_arg_to_config_lookup (key : string) (arg : value) (st : state) :
  exists st',
    add_arg_to_config key arg st = (Ok tt, st') /\
    config st' !! key = (if truthy arg then Some arg else config st !! key) /\
    forall k, k <> key -> config st' !! k = config st !! k.
Proof.
  unfold add_arg_to_config. destruct (truthy arg).
  - eexists. split; [reflexivity|]. simpl. split; [by simplify_map_eq|].
    intros k Hk. by simplify_map_eq.
  - eexists. split; [reflexivity|]. done.
Qed.

(** A value given on the command line wins over whatever the config file or
    the defaults left under the key; without one, that value stays. *)
Lemma add_arg_to_config_precedence (key : string) (arg : value) (st : state) :
  (truthy arg = true ->
   config (add_arg_to_config key arg st).2 !! key = Some arg) /\
  (truthy arg = false ->
   config (add_arg_to_config key arg st).2 !! key = config st !! key).
Proof.
  destruct (add_arg_to_config_lookup key arg st) as (st' & -> & Hk & _).
  simpl. rewrite Hk. split; intros ->; done.
Qed.

(** ** Temporary directory: the no-temp branches *)

(** C8: when the no-temp flag is set, by the argument or in the
    Configuration, [get_temp_dir] returns and records as [tempdir] exactly the
    value the Configuration holds as [outdir], and touches no directory. *)
Theorem get_temp_dir_no_temp (e : env) (tempdir_arg no_temp_arg : value) (cwd : string)
    (st : state) (outdir : value) :
  config st !! "outdir" = Some outdir ->
  (truthy no_temp_arg = true \/
   exists v, config st !! "no_temp" = Some v /\ truthy v = true) ->
  exists st',
    get_temp_dir e tempdir_arg no_temp_arg cwd st = (Ok outdir, st') /\
    config st' !! "tempdir" = Some outdir /\
    config st' !! "outdir" = Some outdir /\
    dirs st' = dirs st /\ files st' = files st.
Proof.
  intros Hout Hflag.
  unfold get_temp_dir, get_temp_dir_body. unfold_monad.
  rewrite Hout. cbv beta iota.
  destruct (truthy no_temp_arg) eqn:Harg.
  - eexists. split; [reflexivity|]. simpl. by simplify_map_eq.
  - destruct Hflag as [?|(v & Hv & Htv)]; [done|].
    rewrite Hv. cbv beta iota. rewrite Htv.
    eexists. split; [reflexivity|]. simpl. by simplify_map_eq.
Qed.

Lemma get_temp_dir_no_temp_witness :
  exists st',
    get_temp_dir posix_env (VStr "scratch") (VBool true) "/work" resolved_state
    = (Ok (VStr "/work/out"), st') /\
    config st' !! "tempdir" = Some (VStr "/work/out") /\
    config st' !! "outdir" = Some (VStr "/work/out") /\
    dirs st' = dirs resolved_state /\ files st' = files resolved_state.
Proof.
  apply (get_temp_dir_no_temp posix_env (VStr "scratch") (VBool true) "/work"
           resolved_state (VStr "/work/out")).
  - reflexivity.
  - left. reflexivity.
Defined.

(** The flag read from the Configuration alone has the same effect. *)
Example no_temp_flag_from_config :
  let st := with_config (<["no_temp" := VBool true]> (config resolved_state)) resolved_state in
  (get_temp_dir posix_env VNone VNone "/work" st).1 = Ok (VStr "/work/out") /\
  config (get_temp_dir posix_env VNone VNone "/work" st).2 !! "tempdir"
  = Some (VStr "/work/out").
Proof. vm_compute. repeat split. Qed.

(** ** Read-length bounds *)

Section sorted.
Implicit Types l : list Z.

Lemma sorted_Permutation l : sorted l ≡ₚ l.
Proof. apply merge_sort_Permutation. Qed.

Lemma sorted_StronglySorted l : StronglySorted Z.le (sorted l).
Proof. apply StronglySorted_merge_sort; apply _. Qed.

Lemma sorted_elem_of l x : x ∈ sorted l <-> x ∈ l.
Proof. by rewrite sorted_Permutation. Qed.

Lemma sorted_nonempty l : l <> [] -> exists x l', sorted l = x :: l'.
Proof.
  intros Hl. destruct (sorted l) as [|x l'] eqn:E; [|eauto].
  destruct Hl. apply Permutation_nil_r. rewrite <- E.
  symmetry. apply sorted_Permutation.
Qed.

Lemma StronglySorted_first l x l' :
  StronglySorted Z.le l -> l = x :: l' -> forall y, y ∈ l -> x <= y.
Proof.
  intros Hs -> y Hy. apply StronglySorted_inv in Hs as [_ Hall].
  apply elem_of_cons in Hy as [->|Hy]; [lia|].
  rewrite Forall_forall in Hall. by apply Hall.
Qed.

Lemma StronglySorted_last l z :
  StronglySorted Z.le l -> last l = Some z -> forall y, y ∈ l -> y <= z.
Proof.
  induction 1 as [|x l Hs IH Hall]; intros Hl y Hy; [by apply elem_of_nil in Hy|].
  destruct l as [|x' l'].
  - simpl in Hl. apply list_elem_of_singleton in Hy. naive_solver lia.
  - change (last (x :: x' :: l')) with (last (x' :: l')) in Hl.
    apply elem_of_cons in Hy as [->|Hy]; [|by apply IH].
    rewrite Forall_forall in Hall. apply Hall. by apply last_Some_elem_of.
Qed.
End sorted.

Lemma get_read_length_filter_run st genes records x l' z :
  config st !! "genes" = Some (VStr genes) ->
  files st !! genes = Some (Fasta records) ->
  sorted (len <$> records) = x :: l' ->
  last (sorted (len <$> records)) = Some z ->
  get_read_length_filter st =
    (Ok tt, with_config (<["max_length" := VInt (z + 200)]>
                           (<["min_length" := VInt x]> (config st))) st).
Proof.
  intros Hg Hf Hs Hl. unfold get_read_length_filter, SeqIO_parse. unfold_monad.
  rewrite Hg. cbv beta iota. rewrite Hf. cbv beta iota.
  rewrite Hs in *. unfold first_item, last_item. unfold_monad. rewrite Hl. reflexivity.
Qed.

Lemma get_read_length_filter_ok st genes records :
  config st !! "genes" = Some (VStr genes) ->
  files st !! genes = Some (Fasta records) ->
  records <> [] ->
  exists x l' z,
    sorted (len <$> records) = x :: l' /\
    last (sorted (len <$> records)) = Some z /\
    get_read_length_filter st =
      (Ok tt, with_config (<["max_length" := VInt (z + 200)]>
                             (<["min_length" := VInt x]> (config st))) st).
Proof.
  intros Hg Hf Hne.
  destruct (sorted_nonempty (len <$> records)) as (x & l' & Hs).
  { by destruct records. }
  destruct (last (sorted (len <$> records))) as [z|] eqn:Hl.
  2:{ rewrite Hs in Hl. by apply last_None in Hl. }
  exists x, l', z. split; [done|]. split; [done|].
  by eapply get_read_length_filter_run.
Qed.

(** C9: for a gene reference FASTA with at least one record,
    [get_read_length_filter] returns normally, [min_length] is the length of
    a shortest sequence and [max_length] the length of a longest one plus
    200. *)
Theorem get_read_length_filter_bounds (st : state) (genes : string)
    (records : list SeqRecord) :
  config st !! "genes" = Some (VStr genes) ->
  files st !! genes = Some (Fasta records) ->
  records <> [] ->
  exists lo hi st',
    get_read_length_filter st = (Ok tt, st') /\
    config st' !! "min_length" = Some (VInt lo) /\
    config st' !! "max_length" = Some (VInt (hi + 200)) /\
    lo ∈ (len <$> records) /\ hi ∈ (len <$> records) /\
    forall n, n ∈ (len <$> records) -> lo <= n <= hi.
Proof.
  intros Hg Hf Hne.
  destruct (get_read_length_filter_ok st genes records Hg Hf Hne)
    as (x & l' & z & Hs & Hl & Hrun).
  exists x, z. eexists. split; [exact Hrun|].
  simpl. split; [by simplify_map_eq|]. split; [by simplify_map_eq|].
  pose proof (sorted_StronglySorted (len <$> records)) as Hss.
  split; [apply sorted_elem_of; rewrite Hs; by left|].
  split; [apply sorted_elem_of; by apply last_Some_elem_of|].
  intros n Hn. apply sorted_elem_of in Hn. split.
  - by eapply StronglySorted_first.
  - by eapply StronglySorted_last.
Qed.

Lemma get_read_length_filter_bounds_witness :
  exists lo hi st',
    get_read_length_filter resolved_state = (Ok tt, st') /\
    config st' !! "min_length" = Some (VInt lo) /\
    config st' !! "max_length" = Some (VInt (hi + 200)) /\
    lo ∈ [220; 180] /\ hi ∈ [220; 180] /\
    forall n, n ∈ [220; 180] -> lo <= n <= hi.
Proof.
  apply (get_read_length_filter_bounds resolved_state "/work/genes.fasta"
           [ {| rec_id := "gene1"; rec_seq := seq_of_length 220 |};
             {| rec_id := "gene2"; rec_seq := seq_of_length 180 |} ]).
  - reflexivity.
  - reflexivity.
  - discriminate.
Defined.

(** Sequences of length 220 and 180 give the bounds 180 and 420. *)
Example get_read_length_filter_180_220 :
  (get_read_length_filter resolved_state).1 = Ok tt /\
  config (get_read_length_filter resolved_state).2 !! "min_length" = Some (VInt 180) /\
  config (get_read_length_filter resolved_state).2 !! "max_length" = Some (VInt 420).
Proof. vm_compute. repeat split. Qed.

(** C10: [get_read_length_filter] indexes the sorted length list without a
    guard of its own.  On a FASTA with no record [lengths[0]] raises
    [IndexError] before anything is stored; with at least one record the
    function returns normally, so the error branch cannot be reached. *)
Theorem get_read_length_filter_guard (st : state) (genes : string)
    (records : list SeqRecord) :
  config st !! "genes" = Some (VStr genes) ->
  files st !! genes = Some (Fasta records) ->
  (records = [] -> get_read_length_filter st = (Raise IndexError, st)) /\
  (records <> [] -> exists st', get_read_length_filter st = (Ok tt, st')).
Proof.
  intros Hg Hf. split.
  - intros ->. unfold get_read_length_filter, SeqIO_parse. unfold_monad.
    rewrite Hg. cbv beta iota. rewrite Hf. reflexivity.
  - intros Hne. destruct (get_read_length_filter_ok st genes records Hg Hf Hne)
      as (x & l' & z & _ & _ & Hrun); eauto.
Qed.

Lemma get_read_length_filter_guard_witness :
  let st := with_config (<["genes" := VStr "/work/empty.fasta"]> (config resolved_state))
                        resolved_state in
  (@nil SeqRecord = [] -> get_read_length_filter st = (Raise IndexError, st)) /\
  (@nil SeqRecord <> [] -> exists st', get_read_length_filter st = (Ok tt, st')).
Proof.
  apply (get_read_length_filter_guard
           (with_config (<["genes" := VStr "/work/empty.fasta"]> (config resolved_state))
                        resolved_state)
           "/work/empty.fasta" []).
  - reflexivity.
  - reflexivity.
Defined.

(** ** Temporary directory: the branches that allocate one *)

Lemma below_refl p : below p p = true.
Proof. unfold below. by rewrite String.eqb_refl. Qed.

Lemma mkdtemp_creates e dir st p st' :
  mkdtemp e dir st = (Ok p, st') ->
  p ∈ dirs st' /\ config st' = config st.
Proof.
  unfold mkdtemp. intros H.
  repeat case_match; simplify_eq; simpl; (split; [set_solver|done]).
Qed.

Lemma new_TemporaryDirectory_creates e dir st t st' :
  new_TemporaryDirectory e dir st = (Ok t, st') ->
  name t ∈ dirs st' /\ config st' = config st.
Proof.
  unfold new_TemporaryDirectory, bind, ret. intros H.
  destruct (mkdtemp e dir st) as [[p|ex] st1] eqn:Hm; simplify_eq.
  destruct (mkdtemp_creates _ _ _ _ _ Hm) as [Hp Hc]. done.
Qed.

Lemma cleanup_removes t st :
  cleanup t st = (Ok tt, (cleanup t st).2) /\
  config (cleanup t st).2 = config st /\
  (name t ∉ dirs (cleanup t st).2) /\
  files (cleanup t st).2 !! (name t) = None.
Proof.
  split; [reflexivity|]. simpl. split; [done|]. split.
  - rewrite elem_of_filter. rewrite below_refl. by intros [? _].
  - apply map_lookup_filter_None. right. intros c _. simpl. by rewrite below_refl.
Qed.

(** Whenever the body of [get_temp_dir] leaves a [TemporaryDirectory] in its
    local variable, the path it records and returns is that object's
    directory, which exists at that point. *)
Lemma get_temp_dir_body_object e tempdir_arg no_temp_arg cwd st v t st1 :
  get_temp_dir_body e tempdir_arg no_temp_arg cwd st = (Ok (v, Some t), st1) ->
  v = VStr (name t) /\ name t ∈ dirs st1 /\ config st1 !! "tempdir" = Some v.
Proof.
  unfold get_temp_dir_body. unfold_monad. intros H.
  repeat (case_match; simplify_eq; try done).
  all: match goal with
       | Hn : new_TemporaryDirectory _ _ _ = (Ok _, _) |- _ =>
           destruct (new_TemporaryDirectory_creates _ _ _ _ _ Hn) as [? ?]
       end.
  all: simpl; split; [done|]; split; [done|]; by simplify_map_eq.
Qed.

(** With no flag, no argument and no [tempdir] key the body allocates a
    directory in the system default location and records its path. *)
Lemma get_temp_dir_body_default e tempdir_arg no_temp_arg cwd st outdir no_temp p st1 :
  config st !! "outdir" = Some outdir ->
  truthy no_temp_arg = false ->
  config st !! "no_temp" = Some no_temp ->
  truthy no_temp = false ->
  truthy tempdir_arg = false ->
  config st !! "tempdir" = None ->
  mkdtemp e None st = (Ok p, st1) ->
  get_temp_dir_body e tempdir_arg no_temp_arg cwd st
  = (Ok (VStr p, Some {| name := p |}),
     with_config (<["tempdir" := VStr p]> (config st1)) st1).
Proof.
  intros Hout Harg Hnt Hntv Htmp Hkey Hmk.
  unfold get_temp_dir_body, new_TemporaryDirectory. unfold_monad.
  rewrite Hout. cbv beta iota. rewrite Harg, Hnt. cbv beta iota.
  rewrite Hntv, Htmp, Hkey.
  rewrite bool_decide_eq_false_2 by (by intros [? ?]). cbv beta iota.
  rewrite Hmk. reflexivity.
Qed.

(** C3: in each branch of [get_temp_dir] that allocates a temporary
    directory, the only reference to the [TemporaryDirectory] object is a
    local variable.  When the function returns, the object is destroyed and
    its finalizer removes the directory: the path recorded as [tempdir]
    existed while the body ran and no longer exists in the state the
    function hands back. *)
Theorem get_temp_dir_removes_directory (e : env) (tempdir_arg no_temp_arg : value)
    (cwd : string) (st st1 : state) (v : value) (t : TemporaryDirectory) :
  get_temp_dir_body e tempdir_arg no_temp_arg cwd st = (Ok (v, Some t), st1) ->
  exists st2,
    get_temp_dir e tempdir_arg no_temp_arg cwd st = (Ok (VStr (name t)), st2) /\
    config st2 !! "tempdir" = Some (VStr (name t)) /\
    os_path_exists (name t) st1 = (Ok true, st1) /\
    os_path_exists (name t) st2 = (Ok false, st2).
Proof.
  intros Hbody.
  destruct (get_temp_dir_body_object _ _ _ _ _ _ _ _ Hbody) as (-> & Hin & Hcfg).
  destruct (cleanup_removes t st1) as (Hrun & Hc & Hd & Hf).
  exists (cleanup t st1).2. split; [|split; [|split]].
  - unfold get_temp_dir, bind. rewrite Hbody. reflexivity.
  - by rewrite Hc.
  - unfold os_path_exists. by rewrite bool_decide_eq_true_2.
  - unfold os_path_exists. rewrite bool_decide_eq_false_2 by done.
    rewrite Hf. by rewrite bool_decide_eq_false_2 by (by intros [? ?]).
Qed.

Lemma get_temp_dir_removes_directory_witness :
  exists st2,
    get_temp_dir posix_env (VStr "") (VBool false) "/work" resolved_state
    = (Ok (VStr "/tmp/tmpa1b2c3d4"), st2) /\
    config st2 !! "tempdir" = Some (VStr "/tmp/tmpa1b2c3d4") /\
    os_path_exists "/tmp/tmpa1b2c3d4"
      (get_temp_dir_body posix_env (VStr "") (VBool false) "/work" resolved_state).2
    = (Ok true,
       (get_temp_dir_body posix_env (VStr "") (VBool false) "/work" resolved_state).2) /\
    os_path_exists "/tmp/tmpa1b2c3d4" st2 = (Ok false, st2).
Proof.
  apply (get_temp_dir_removes_directory posix_env (VStr "") (VBool false) "/work"
           resolved_state
           (get_temp_dir_body posix_env (VStr "") (VBool false) "/work" resolved_state).2
           (VStr "/tmp/tmpa1b2c3d4") {| name := "/tmp/tmpa1b2c3d4" |}).
  vm_compute. reflexivity.
Defined.

(** The two branches with an explicit temporary directory, from the
    argument and from the Configuration, behave alike. *)
Example get_temp_dir_explicit_removed :
  let st := with_config (<["tempdir" := VStr "scratch"]> (config resolved_state))
                        resolved_state in
  let by_arg := get_temp_dir posix_env (VStr "scratch") VNone "/work" resolved_state in
  let by_config := get_temp_dir posix_env VNone VNone "/work" st in
  by_arg.1 = Ok (VStr "/work/scratch/tmpa1b2c3d4") /\
  (os_path_exists "/work/scratch" by_arg.2).1 = Ok true /\
  (os_path_exists "/work/scratch/tmpa1b2c3d4" by_arg.2).1 = Ok false /\
  by_config.1 = Ok (VStr "/work/scratch/tmpa1b2c3d4") /\
  (os_path_exists "/work/scratch" by_config.2).1 = Ok true /\
  (os_path_exists "/work/scratch/tmpa1b2c3d4" by_config.2).1 = Ok false.
Proof. vm_compute. repeat split. Qed.

(** ** The demultiplexing options *)

(** C1: [look_for_guppy_barcoder] does not apply the command-line values of
    [demultiplex] and [path_to_guppy].  Its first statement calls
    [add_arg_to_config] through the name [qcfunk], which the module never
    binds, so every call raises [NameError] with the Configuration
    untouched: a [demultiplex] flag given on the command line leaves the
    default [False] in place. *)
Theorem look_for_guppy_barcoder_drops_arguments :
  (forall e demultiplex_arg path_to_guppy_arg cwd st,
     look_for_guppy_barcoder e demultiplex_arg path_to_guppy_arg cwd st
     = (Raise (NameError "qcfunk"), st)) /\
  config (look_for_guppy_barcoder posix_env (VBool true) (VStr "/opt/ont-guppy/bin")
            "/work" initial_state).2 !! "demultiplex" = Some (VBool false) /\
  config (look_for_guppy_barcoder posix_env (VBool true) (VStr "/opt/ont-guppy/bin")
            "/work" initial_state).2 !! "path_to_guppy" = Some (VBool false).
Proof. split; [reflexivity|]. vm_compute. repeat split. Qed.

(** The options that go through [add_arg_to_config] directly do follow the
    precedence: here [species], over a default and over a config-file value. *)
Example add_arg_to_config_species :
  let from_file := with_config (<["species" := VStr "mus"]> get_defaults) initial_state in
  config (add_arg_to_config "species" (VStr "phalacrocorax") from_file).2 !! "species"
  = Some (VStr "phalacrocorax") /\
  config (add_arg_to_config "species" VNone from_file).2 !! "species"
  = Some (VStr "mus") /\
  config (add_arg_to_config "species" VNone initial_state).2 !! "species"
  = Some (VStr "apodemus").
Proof. vm_compute. repeat split. Qed.

(** ** Config-file keys *)

Lemma lstrip_replace key : lstrip "-" (replace "-" "_" key) = replace "-" "_" key.
Proof.
  destruct key as [|c key]; [done|]. simpl.
  destruct (Ascii.eqb c "-") eqn:E; simpl; by rewrite ?E.
Qed.

Lemma merge_keys_singleton key v st :
  merge_keys [(VStr key, v)] st
  = (Ok tt, with_config (<[snakecase key := v]> (config st)) st).
Proof. reflexivity. Qed.

(** C2: [parse_yaml_file] replaces the hyphens of a key before it strips
    leading hyphens, so nothing is left to strip: the stored key is the key
    with every hyphen, leading ones included, turned into an underscore.  The
    value of [--read-dir] is stored under [__read_dir] and [read_dir] stays
    unset. *)
Theorem parse_yaml_file_leading_hyphens :
  (forall key, snakecase key = replace "-" "_" key) /\
  snakecase "read-dir" = "read_dir" /\
  snakecase "--read-dir" = "__read_dir" /\
  (parse_yaml_file "/work/my_config.yaml" initial_state).1 = Ok tt /\
  config (parse_yaml_file "/work/my_config.yaml" initial_state).2 !! "__read_dir"
  = Some (VStr "reads") /\
  config (parse_yaml_file "/work/my_config.yaml" initial_state).2 !! "read_dir" = None.
Proof. split; [exact lstrip_replace|]. vm_compute. repeat split. Qed.

(** ** Config-file discovery *)

(** C6: with an explicit config-file argument [look_for_config] evaluates
    the name [input_file], which nothing binds, right after it has joined the
    path: the call raises [NameError] whether or not the file exists, and
    neither [path_to_config] nor [configfile] is recorded. *)
Theorem look_for_config_explicit_raises :
  (forall e c a cwd st,
     look_for_config e (VStr (String c a)) cwd st = (Raise (NameError "input_file"), st)) /\
  (os_path_isfile "/work/my_config.yaml" initial_state).1 = Ok true /\
  (look_for_config posix_env (VStr "my_config.yaml") "/work" initial_state).1
  = Raise (NameError "input_file") /\
  config (look_for_config posix_env (VStr "my_config.yaml") "/work" initial_state).2
    !! "path_to_config" = None /\
  config (look_for_config posix_env (VStr "my_config.yaml") "/work" initial_state).2
    !! "configfile" = Some (VStr "config.yaml").
Proof. split; [reflexivity|]. vm_compute. repeat split. Qed.

(** Without the argument the function looks for [config.yaml] in the working
    directory and goes on silently when there is none. *)
Example look_for_config_default_absent :
  (look_for_config posix_env VNone "/work" initial_state).1 = Ok "" /\
  config (look_for_config posix_env VNone "/work" initial_state).2 !! "path_to_config"
  = Some (VStr "/work").
Proof. vm_compute. repeat split. Qed.

(** ** Read-path validation *)

(** C7: when the command line gives no read directory and the Configuration
    has a [read_path] key whose value is empty, [look_for_basecalled_reads]
    returns normally: nothing is written and the process does not exit. *)
Theorem look_for_basecalled_reads_empty_value (e : env) (read_path_arg v : value)
    (cwd : string) (st : state) :
  truthy read_path_arg = false ->
  config st !! "read_path" = Some v ->
  truthy v = false ->
  look_for_basecalled_reads e read_path_arg cwd st = (Ok tt, st).
Proof.
  intros Ha Hc Hv. unfold look_for_basecalled_reads. rewrite Ha. unfold_monad.
  rewrite Hc. rewrite bool_decide_eq_true_2 by eauto. cbv beta iota.
  rewrite Hc. cbv beta iota. by rewrite Hv.
Qed.

Lemma look_for_basecalled_reads_empty_value_witness :
  look_for_basecalled_reads posix_env VNone "/work"
    (with_config (<["read_path" := VStr ""]> get_defaults) initial_state)
  = (Ok tt, with_config (<["read_path" := VStr ""]> get_defaults) initial_state).
Proof.
  apply (look_for_basecalled_reads_empty_value posix_env VNone (VStr "") "/work"
           (with_config (<["read_path" := VStr ""]> get_defaults) initial_state)).
  - reflexivity.
  - reflexivity.
  - reflexivity.
Defined.

(** With no [read_path] key at all the function does exit. *)
Lemma look_for_basecalled_reads_missing (e : env) (read_path_arg : value) (cwd : string)
    (st : state) :
  truthy read_path_arg = false ->
  config st !! "read_path" = None ->
  exists msg,
    look_for_basecalled_reads e read_path_arg cwd st
    = (Raise (SystemExit (-1)),
       State (config st) (dirs st) (files st) (stdout st) (stderr st ++ [msg])).
Proof.
  intros Ha Hc. unfold look_for_basecalled_reads. rewrite Ha. unfold_monad.
  rewrite Hc. rewrite bool_decide_eq_false_2 by (by intros [? ?]). cbv beta iota.
  eauto.
Qed.

(** A read path from the Configuration is joined to the config file's
    directory, and a scan that counts no fastq file is fatal. *)
Lemma look_for_basecalled_reads_no_fastq (e : env) (read_path_arg : value)
    (cwd a p : string) (st : state) :
  truthy read_path_arg = false ->
  config st !! "read_path" = Some (VStr a) ->
  a <> "" ->
  config st !! "path_to_config" = Some (VStr p) ->
  count_fastq (os_walk e (os_path_join p (expanduser e a))) = 0 ->
  exists msg,
    look_for_basecalled_reads e read_path_arg cwd st
    = (Raise (SystemExit (-1)),
       State (config st) (dirs st) (files st) (stdout st) (stderr st ++ [msg])).
Proof.
  intros Ha Hc Hne Hp Hz. unfold look_for_basecalled_reads. rewrite Ha. unfold_monad.
  rewrite Hc. rewrite bool_decide_eq_true_2 by eauto. cbv beta iota.
  rewrite Hc. cbv beta iota.
  replace (truthy (VStr a)) with true.
  2:{ simpl. by destruct (String.eqb_spec a ""). }
  rewrite Hp. cbv beta iota. rewrite Hz. simpl. eauto.
Qed.

Example look_for_basecalled_reads_counts :
  let st := with_config (<["read_path" := VStr "reads"]> (config resolved_state))
                        resolved_state in
  count_fastq (os_walk posix_env "/work/reads") = 2 /\
  look_for_basecalled_reads posix_env VNone "/work" st
  = (Ok tt, State (config st) (dirs st) (files st)
              ["Found 2 fastq files in the input directory"] []).
Proof. vm_compute. repeat split. Qed.

(** ** Barcode CSV validation *)

(** The loop keeps the rows' values in row order behind what it already
    holds, accepts exactly on the prefix test, and changes nothing else. *)
Lemma collect_barcodes_accepts rows : forall acc st bs st',
  collect_barcodes rows acc st = (Ok bs, st') ->
  st' = st /\
  exists new, bs = (acc ++ new)%list /\
    Forall has_barcode_prefix new /\
    Forall2 (fun row b => row !! "barcode" = Some (VStr b)) rows new.
Proof.
  induction rows as [|row rows IH]; intros acc st bs st' H; simpl in H.
  - unfold ret in H. simplify_eq. split; [done|]. exists []. by rewrite app_nil_r.
  - destruct (row !! "barcode") as [[| | |b| |]|] eqn:Hrow; try done.
    destruct (startswith b "NB" || startswith b "BC") eqn:Hp; [|done].
    apply IH in H as (-> & new & -> & Hall & Hrows). split; [done|].
    exists (b :: new). rewrite <- app_assoc. split; [done|]. split.
    + constructor; [|done]. unfold has_barcode_prefix. by apply orb_true_iff.
    + by constructor.
Qed.

Lemma collect_barcodes_row_order bs : forall acc st,
  Forall has_barcode_prefix bs ->
  collect_barcodes (barcode_row <$> bs) acc st = (Ok (acc ++ bs)%list, st).
Proof.
  induction bs as [|b bs IH]; intros acc st Hall; simpl.
  - by rewrite app_nil_r.
  - apply Forall_cons in Hall as [Hb Hall].
    unfold barcode_row at 1. rewrite lookup_singleton_eq.
    replace (startswith b "NB" || startswith b "BC") with true.
    2:{ symmetry. by apply orb_true_iff. }
    rewrite IH by done. by rewrite <- app_assoc.
Qed.

Lemma print_items_config l : forall st,
  (print_items l st).1 = Ok tt /\ config (print_items l st).2 = config st.
Proof.
  induction l as [|i l IH]; intros st; [done|].
  simpl. unfold bind, print. cbv beta iota.
  destruct (IH (State (config st) (dirs st) (files st)
                      (stdout st ++ ["  - " ++ i]) (stderr st))) as [H1 H2].
  destruct (print_items l _) as [[[]|ex] st']; simpl in *; done.
Qed.

(** X26: Whatever the input, a call that returns hands back [None] and a
    Configuration that is the one it received, up to the key [barcodes_csv]
    being set to the empty string. *)
Lemma look_for_barcodes_csv_stores_nothing e barcodes_csv_arg cwd st v st' :
  look_for_barcodes_csv e barcodes_csv_arg cwd st = (Ok v, st') ->
  v = VNone /\
  (config st' = config st \/ config st' = <["barcodes_csv" := VStr ""]> (config st)).
Proof.
  unfold look_for_barcodes_csv, look_for_barcodes_csv_body, csv_DictReader,
    os_path_exists.
  unfold_monad. intros H.
  repeat (case_match; simplify_eq; try done).
  all: repeat match goal with
         | Hc : collect_barcodes _ _ _ = (Ok _, _) |- _ =>
             apply collect_barcodes_accepts in Hc as [-> _]
         | Hp : print_items ?l ?s = (_, _) |- _ =>
             let H1 := fresh in let H2 := fresh in
             destruct (print_items_config l s) as [H1 H2];
             rewrite Hp in H1, H2; simpl in H1, H2; clear Hp
         end.
  all: simpl in *; split; [done|]; eauto.
Qed.

(** C4: on the CSV with header [barcode] and rows [NB01], [NB02], [BC03]
    the body of [look_for_barcodes_csv] builds the list in row order and
    joins it to ["NB01,NB02,BC03"], but only in a local variable.  The
    function returns [None] and leaves the Configuration as it found it: the
    joined string reaches nothing downstream. *)
Theorem look_for_barcodes_csv_join_is_local :
  let arg := VStr "barcodes.csv" in
  collect_barcodes [barcode_row "NB01"; barcode_row "NB02"; barcode_row "BC03"] []
    initial_state = (Ok ["NB01"; "NB02"; "BC03"], initial_state) /\
  (look_for_barcodes_csv_body posix_env arg "/work" initial_state).1
  = Ok {| loc_barcodes_csv := "/work/barcodes.csv";
          loc_barcodes := Some "NB01,NB02,BC03" |} /\
  (look_for_barcodes_csv posix_env arg "/work" initial_state).1 = Ok VNone /\
  config (look_for_barcodes_csv posix_env arg "/work" initial_state).2
  = config initial_state /\
  stdout (look_for_barcodes_csv posix_env arg "/work" initial_state).2
  = ["Input barcodes csv file: /work/barcodes.csv";
     "3 barcodes read in from file"; "  - NB01"; "  - NB02"; "  - BC03"].
Proof. cbv zeta. repeat split. Qed.

(** C5, as the specification states it, fails: the row value [NBxyz] is
    accepted into the barcode list and does not have the form [NB\d+] or
    [BC\d+]. *)
Lemma barcode_pattern_counterexample :
  ~ (forall rows st bs st',
       collect_barcodes rows [] st = (Ok bs, st') ->
       Forall (fun b => barcode_pattern b = true) bs).
Proof.
  intros H.
  specialize (H [barcode_row "NBxyz"] initial_state ["NBxyz"] initial_state eq_refl).
  apply Forall_inv in H. vm_compute in H. discriminate.
Qed.

(** C5, amended: every string [look_for_barcodes_csv] accepts into the
    barcode list starts with [NB] or with [BC]. *)
Theorem collect_barcodes_prefix (rows : list (gmap string value)) (st st' : state)
    (bs : list string) :
  collect_barcodes rows [] st = (Ok bs, st') ->
  Forall has_barcode_prefix bs.
Proof.
  intros H. apply collect_barcodes_accepts in H as (_ & new & -> & Hall & _).
  exact Hall.
Qed.

Lemma collect_barcodes_prefix_witness :
  Forall has_barcode_prefix ["NB01"; "NBxyz"; "BC"].
Proof.
  apply (collect_barcodes_prefix
           [barcode_row "NB01"; barcode_row "NBxyz"; barcode_row "BC"]
           initial_state initial_state ["NB01"; "NBxyz"; "BC"]).
  reflexivity.
Defined.

(** A value with neither prefix ends the run with a message and exit
    status -1. *)
Example collect_barcodes_rejects :
  collect_barcodes [barcode_row "NB01"; barcode_row "barcode07"] [] initial_state
  = (Raise (SystemExit (-1)),
     State (config initial_state) (dirs initial_state) (files initial_state) []
       ["Error: Please provide barcodes in the format `NB01` or `BC01`" ++ NL]).
Proof. vm_compute. repeat split. Qed.
Set Warnings "-clear-no-such-hyp".

(** * Further properties of the resolver *)

(** ** Strings *)

Section strings.
Implicit Types s p q : string.
Implicit Types c : ascii.

Lemma append_cons c s p : String c s ++ p = String c (s ++ p).
Proof. reflexivity. Qed.

Lemma append_nil_l s : "" ++ s = s.
Proof. reflexivity. Qed.

Lemma append_nil_r s : s ++ "" = s.
Proof. induction s as [|c s IH]; [done|]. rewrite append_cons. by rewrite IH. Qed.

Lemma append_assoc s p q : (s ++ p) ++ q = s ++ (p ++ q).
Proof. induction s as [|c s IH]; [done|]. rewrite !append_cons. by rewrite IH. Qed.

Lemma prefix_append p q : String.prefix p (p ++ q) = true.
Proof.
  induction p as [|c p IH]; [by destruct q|].
  rewrite append_cons. simpl. destruct (ascii_dec c c); [done|congruence].
Qed.

Lemma prefix_length p s :
  String.prefix p s = true -> (String.length p <= String.length s)%nat.
Proof.
  revert s. induction p as [|c p IH]; intros s H; simpl; [lia|].
  destruct s as [|c' s]; simpl in *; [done|].
  destruct (ascii_dec c c'); [|done]. apply IH in H. lia.
Qed.

Lemma length_append s p :
  String.length (s ++ p) = (String.length s + String.length p)%nat.
Proof. induction s as [|c s IH]; [done|]. rewrite append_cons. simpl. by rewrite IH. Qed.

Lemma rev_app_append s p q : String.rev_app (s ++ p) q = String.rev_app p (String.rev_app s q).
Proof.
  revert q. induction s as [|c s IH]; intros q; [done|].
  rewrite append_cons. simpl. apply IH.
Qed.

Lemma rev_app_spec s q : String.rev_app s q = String.rev s ++ q.
Proof.
  unfold String.rev. revert q. induction s as [|c s IH]; intros q; simpl; [done|].
  rewrite IH. rewrite (IH (String c "")). by rewrite append_assoc.
Qed.

Lemma rev_append s p : String.rev (s ++ p) = String.rev p ++ String.rev s.
Proof. unfold String.rev at 1. rewrite rev_app_append. by rewrite rev_app_spec. Qed.

Lemma endswith_append s p : endswith (s ++ p) p = true.
Proof. unfold endswith. rewrite rev_append. apply prefix_append. Qed.

Lemma startswith_append p s : startswith (p ++ s) p = true.
Proof. apply prefix_append. Qed.

Lemma lower_append s p : lower (s ++ p) = lower s ++ lower p.
Proof.
  induction s as [|c s IH]; [done|].
  rewrite append_cons. simpl. rewrite append_cons. by rewrite IH.
Qed.

(** The last character decides a failed suffix test. *)
Lemma endswith_last_ne s c c' p :
  c <> c' -> endswith (s ++ String c "") (p ++ String c' "") = false.
Proof.
  intros Hne. unfold endswith. rewrite !rev_append.
  change (String.rev (String c "")) with (String c "").
  change (String.rev (String c' "")) with (String c' "").
  rewrite !append_cons. simpl. destruct (ascii_dec c' c); [congruence|done].
Qed.
End strings.

(** ** Output prefix and output directory *)

Lemma join_cons_cons sep x y l : join sep (x :: y :: l) = x ++ sep ++ join sep (y :: l).
Proof. reflexivity. Qed.




Lemma contains_str_cons c a d :
  contains_str (String c "") (String a d)
  = (if ascii_dec c a then true else contains_str (String c "") d).
Proof.
  change (contains_str (String c "") (String a d))
    with (String.prefix (String c "") (String a d) || contains_str (String c "") d).
  unfold String.prefix. destruct (ascii_dec c a); [|done]. by destruct d.
Qed.



Lemma str_replace_char_cons c new a s :
  str_replace (String c "") new (String a s)
  = if ascii_dec c a then new ++ str_replace (String c "") new s
    else String a (str_replace (String c "") new s).
Proof.
  unfold str_replace. simpl. destruct (ascii_dec c a); [|done]. by destruct s.
Qed.

Lemma contains_char_append x p q :
  contains_str (String x "") (p ++ q)
  = contains_str (String x "") p || contains_str (String x "") q.
Proof.
  induction p as [|a p IH].
  - rewrite append_nil_l. by destruct q.
  - rewrite append_cons, !contains_str_cons. by destruct (ascii_dec x a).
Qed.

Lemma str_replace_char_absent x c new s :
  contains_str (String x "") new = false ->
  x = c \/ contains_str (String x "") s = false ->
  contains_str (String x "") (str_replace (String c "") new s) = false.
Proof.
  intros Hnew. induction s as [|a s IH]; intros Hs; [done|].
  rewrite str_replace_char_cons.
  assert (x = c \/ contains_str (String x "") s = false) as Hs'.
  { destruct Hs as [?|Hs]; [by left|]. right.
    rewrite contains_str_cons in Hs. by destruct (ascii_dec x a). }
  destruct (ascii_dec c a) as [->|Hca].
  - rewrite contains_char_append, Hnew. by apply IH.
  - rewrite contains_str_cons. destruct (ascii_dec x a) as [->|Hxa]; [|by apply IH].
    destruct Hs as [->|Hs]; [done|].
    rewrite contains_str_cons in Hs. by destruct (ascii_dec a a).
Qed.

(** X10: The timestamp in a synthesized directory name holds no colon, no dot
    and no [T], whatever the clock returned. *)
Theorem timestamp_of_clean (iso : string) :
  contains_str ":" (timestamp_of iso) = false /\
  contains_str "." (timestamp_of iso) = false /\
  contains_str "T" (timestamp_of iso) = false.
Proof.
  unfold timestamp_of. repeat split.
  - apply str_replace_char_absent; [done|]. right.
    apply str_replace_char_absent; [done|]. right.
    apply str_replace_char_absent; [done|]. by left.
  - apply str_replace_char_absent; [done|]. right.
    apply str_replace_char_absent; [done|]. by left.
  - apply str_replace_char_absent; [done|]. by left.
Qed.

Ltac run_monad :=
  repeat progress
    (unfold bind, ret, raise, sys_exit, getitem, setitem, contains, get_config,
       put_config, print, stderr_write, as_str, as_prefix, open_file,
       os_path_exists, os_mkdir;
     cbn [config dirs files stdout stderr fst snd]; cbv beta iota).









(** ** Species data *)

Lemma existsb_value_eqb_str sp names :
  existsb (value_eqb (VStr sp)) (VStr <$> names) = bool_decide (sp ∈ names).
Proof.
  induction names as [|n names IH]; [done|].
  change (existsb (value_eqb (VStr sp)) (VStr <$> n :: names))
    with (String.eqb sp n || existsb (value_eqb (VStr sp)) (VStr <$> names)).
  rewrite IH. destruct (String.eqb_spec sp n) as [->|Hne].
  - symmetry. apply bool_decide_eq_true_2. by left.
  - simpl. apply bool_decide_ext. rewrite elem_of_cons. naive_solver.
Qed.

Lemma get_package_data_cases (h : host) (thisdir sp : string) (species_arg : value)
    (names : list string) (st : state) :
  (if truthy species_arg then Some species_arg else config st !! "species")
  = Some (VStr sp) ->
  config st !! "allowed_species" = Some (VList (VStr <$> names)) ->
  exists st',
    config st' !! "matrix_file"
    = Some (VStr (resource_filename h "peaclock" "substitution_matrix.txt")) /\
    config st' !! "species" = Some (VStr sp) /\
    if bool_decide (sp ∈ names) then
      get_package_data h thisdir species_arg st = (Ok tt, st') /\
      config st' !! "cpg_sites"
      = Some (VStr (resource_filename h "peaclock" ("data/" ++ sp ++ "/cpg_sites.csv"))) /\
      config st' !! "genes"
      = Some (VStr (resource_filename h "peaclock" ("data/" ++ sp ++ "/genes.fasta"))) /\
      config st' !! "primer_sequences"
      = Some (VStr (resource_filename h "peaclock"
                      ("data/" ++ sp ++ "/primer_sequences.csv"))) /\
      stderr st' = stderr st
    else
      get_package_data h thisdir species_arg st = (Raise (SystemExit (-1)), st') /\
      config st' !! "genes" = config st !! "genes" /\
      exists msg, stderr st' = (stderr st ++ [msg])%list.
Proof.
  intros Hsp Hallowed.
  unfold get_package_data, add_arg_to_config, py_in.
  destruct (truthy species_arg) eqn:Harg; run_monad.
  - simplify_eq. rewrite lookup_insert_eq. run_monad.
    rewrite lookup_insert_ne by done. rewrite lookup_insert_ne by done.
    rewrite Hallowed. run_monad. rewrite existsb_value_eqb_str.
    destruct (bool_decide (sp ∈ names)); run_monad.
    + eexists. split; [|split; [|split; [reflexivity|]]]; [by simplify_map_eq..|].
      cbn [config stderr]. repeat split; by simplify_map_eq.
    + eexists. split; [|split; [|split; [reflexivity|]]]; [by simplify_map_eq..|].
      cbn [config stderr]. split; [by simplify_map_eq|]. eauto.
  - rewrite lookup_insert_ne by done. rewrite Hsp. run_monad.
    rewrite lookup_insert_ne by done.
    rewrite Hallowed. run_monad. rewrite existsb_value_eqb_str.
    destruct (bool_decide (sp ∈ names)); run_monad.
    + eexists. split; [|split; [|split; [reflexivity|]]]; [by simplify_map_eq..|].
      cbn [config stderr]. repeat split; by simplify_map_eq.
    + eexists. split; [|split; [|split; [reflexivity|]]]; [by simplify_map_eq..|].
      cbn [config stderr]. split; [by simplify_map_eq|]. eauto.
Qed.

(** X13: When the list of allowed species holds strings and the resolved species
    is one of them, letter for letter, [get_package_data] returns normally
    and records the matrix file, the species and the three per-species paths
    under the species' own data directory. *)
Theorem get_package_data_accepts (h : host) (thisdir sp : string) (species_arg : value)
    (names : list string) (st : state) :
  (if truthy species_arg then Some species_arg else config st !! "species")
  = Some (VStr sp) ->
  config st !! "allowed_species" = Some (VList (VStr <$> names)) ->
  sp ∈ names ->
  exists st',
    get_package_data h thisdir species_arg st = (Ok tt, st') /\
    config st' !! "matrix_file"
    = Some (VStr (resource_filename h "peaclock" "substitution_matrix.txt")) /\
    config st' !! "species" = Some (VStr sp) /\
    config st' !! "cpg_sites"
    = Some (VStr (resource_filename h "peaclock" ("data/" ++ sp ++ "/cpg_sites.csv"))) /\
    config st' !! "genes"
    = Some (VStr (resource_filename h "peaclock" ("data/" ++ sp ++ "/genes.fasta"))) /\
    config st' !! "primer_sequences"
    = Some (VStr (resource_filename h "peaclock" ("data/" ++ sp ++ "/primer_sequences.csv"))).
Proof.
  intros Hsp Hallowed Hin.
  destruct (get_package_data_cases h thisdir sp species_arg names st Hsp Hallowed)
    as (st' & Hm & Hs & Hrun).
  rewrite bool_decide_eq_true_2 in Hrun by done.
  destruct Hrun as (Hrun & ? & ? & ? & _). by exists st'.
Qed.

(** X14: A resolved species outside the list ends the run with status -1 and one
    message.  By then the matrix file and the species are already in the
    Configuration; the per-species paths are not touched. *)
Theorem get_package_data_rejects (h : host) (thisdir sp : string) (species_arg : value)
    (names : list string) (st : state) :
  (if truthy species_arg then Some species_arg else config st !! "species")
  = Some (VStr sp) ->
  config st !! "allowed_species" = Some (VList (VStr <$> names)) ->
  sp ∉ names ->
  exists st' msg,
    get_package_data h thisdir species_arg st = (Raise (SystemExit (-1)), st') /\
    stderr st' = (stderr st ++ [msg])%list /\
    config st' !! "matrix_file"
    = Some (VStr (resource_filename h "peaclock" "substitution_matrix.txt")) /\
    config st' !! "species" = Some (VStr sp) /\
    config st' !! "genes" = config st !! "genes".
Proof.
  intros Hsp Hallowed Hin.
  destruct (get_package_data_cases h thisdir sp species_arg names st Hsp Hallowed)
    as (st' & Hm & Hs & Hrun).
  rewrite bool_decide_eq_false_2 in Hrun by done.
  destruct Hrun as (Hrun & ? & msg & ?). by exists st', msg.
Qed.

(** X15: From the defaults, a species given on the command line is accepted
    exactly when it is [apodemus], [mus] or [phalacrocorax]. *)
Theorem get_package_data_defaults (h : host) (thisdir : string) (c : ascii) (sp' : string)
    (st : state) :
  config st = get_defaults ->
  let sp := String c sp' in
  (get_package_data h thisdir (VStr sp) st).1 = Ok tt
  <-> sp = "apodemus" \/ sp = "mus" \/ sp = "phalacrocorax".
Proof.
  intros Hcfg sp.
  destruct (get_package_data_cases h thisdir sp (VStr sp)
              ["apodemus"; "mus"; "phalacrocorax"] st) as (st' & _ & _ & Hrun).
  { reflexivity. }
  { by rewrite Hcfg. }
  destruct (bool_decide (sp ∈ ["apodemus"; "mus"; "phalacrocorax"])) eqn:Hin.
  - destruct Hrun as (-> & _). apply bool_decide_eq_true_1 in Hin.
    split; [|done]. intros _. set_solver.
  - destruct Hrun as (-> & _). apply bool_decide_eq_false_1 in Hin.
    split; [done|]. intros H. destruct Hin. set_solver.
Qed.

(** ** The workflow file *)

Lemma os_path_join_relative a b :
  startswith b "/" = false ->
  exists pre, os_path_join a b = pre ++ b.
Proof.
  intros Hb. unfold os_path_join. rewrite Hb.
  destruct (String.eqb a "" || endswith a "/").
  - by exists a.
  - exists (a ++ "/"). by rewrite append_assoc.
Qed.

Lemma endswith_char_ne s c c' :
  c <> c' -> endswith (s ++ String c "") (String c' "") = false.
Proof. apply (endswith_last_ne s c c' ""). Qed.

Lemma append_nonempty s p : p <> "" -> String.eqb (s ++ p) "" = false.
Proof.
  intros Hp. apply String.eqb_neq. intros H.
  apply (f_equal String.length) in H. rewrite length_append in H.
  destruct p; [done|]. simpl in H. lia.
Qed.

Lemma snakefile_path thisdir :
  exists pre,
    os_path_join (os_path_join thisdir "scripts") "Snakefile" = pre ++ "scripts/Snakefile".
Proof.
  destruct (os_path_join_relative thisdir "scripts" eq_refl) as [pre Hpre].
  exists pre. rewrite Hpre. unfold os_path_join.
  change (startswith "Snakefile" "/") with false. cbv iota.
  rewrite append_nonempty by done.
  change (pre ++ "scripts") with (pre ++ "script" ++ "s") at 1.
  rewrite <- (append_assoc pre "script" "s").
  rewrite (endswith_char_ne (pre ++ "script") "s" "/") by done.
  cbn [orb]. by rewrite append_assoc.
Qed.

(** X28: [get_snakefile] returns only a path that exists and that ends in
    [scripts/Snakefile], and it leaves the state alone; any other outcome is
    an exit with status -1 after one message. *)
Theorem get_snakefile_result (thisdir : string) (st : state) :
  (exists p,
     get_snakefile thisdir st = (Ok p, st) /\
     os_path_exists p st = (Ok true, st) /\
     endswith p "scripts/Snakefile" = true) \/
  (exists msg,
     get_snakefile thisdir st
     = (Raise (SystemExit (-1)),
        State (config st) (dirs st) (files st) (stdout st) (stderr st ++ [msg]))).
Proof.
  unfold get_snakefile.
  destruct (snakefile_path thisdir) as [pre Hp].
  set (p := os_path_join (os_path_join thisdir "scripts") "Snakefile") in *.
  unfold bind, os_path_exists. cbv beta.
  destruct (bool_decide (p ∈ dirs st) || bool_decide (is_Some (files st !! p))) eqn:Hex.
  - left. exists p. split; [done|]. split; [by rewrite Hex|].
    rewrite Hp. apply endswith_append.
  - right. eexists. reflexivity.
Qed.

(** ** The CpG header *)



Lemma join_sample_prefix fields : startswith (join "," ("sample" :: fields)) "sample" = true.
Proof.
  destruct fields as [|f fields]; [done|].
  rewrite join_cons_cons. apply startswith_append.
Qed.


(** ** Colours *)

(** X30: The named helpers and [colour] agree on red, green, yellow and bold
    underline.  For [cyan] they do not: [colour] puts the word [cyan] in
    front of the text where the helper puts the escape code. *)
Theorem colour_helpers (text : string) :
  colour text "red" = red text /\
  colour text "green" = green text /\
  colour text "yellow" = yellow text /\
  colour text "bold_underline" = bold_underline text /\
  colour text "cyan" = "cyan" ++ text ++ END_FORMATTING /\
  colour text "cyan" <> cyan text.
Proof. repeat split. discriminate. Qed.

Lemma append_longer pre s post : pre <> "" -> pre ++ s ++ post <> s.
Proof.
  intros Hpre H. apply (f_equal String.length) in H.
  rewrite !length_append in H. destruct pre; [done|]. simpl in H. lia.
Qed.

Lemma append_nonempty_l s p : s <> "" -> s ++ p <> "".
Proof. by destruct s. Qed.

Lemma append_nonempty_r s p : p <> "" -> s ++ p <> "".
Proof. destruct s; [done|]. by rewrite append_cons. Qed.

(** X29: [colour] hands the text back unchanged exactly when the style names
    neither modifier and none of the five colours; in every other case the
    text is wrapped: something in front, the reset code behind. *)
Theorem colour_passthrough (text text_colour : string) :
  let name := colour_name text_colour in
  let plain :=
    negb (contains_str "bold" text_colour) &&
    negb (contains_str "underline" (str_replace "bold" "" text_colour)) &&
    negb (contains_str "red" name) && negb (contains_str "green" name) &&
    negb (contains_str "yellow" name) && negb (contains_str "dim" name) &&
    negb (contains_str "cyan" name) in
  (plain = true -> colour text text_colour = text) /\
  (plain = false ->
   colour text text_colour <> text /\
   exists pre, pre <> "" /\ colour text text_colour = pre ++ text ++ END_FORMATTING).
Proof.
  intros name plain. unfold plain, colour. fold (colour_name text_colour). fold name.
  destruct (contains_str "bold" text_colour),
    (contains_str "underline" (str_replace "bold" "" text_colour)),
    (contains_str "red" name), (contains_str "green" name),
    (contains_str "yellow" name), (contains_str "dim" name),
    (contains_str "cyan" name); simpl.
  all: split; intros Hp; try done.
  all: split; [by apply append_longer|]; eexists; split; [|reflexivity]; done.
Qed.

(** ** Merging the config file *)

Lemma merge_keys_run kvs : forall st,
  merge_keys (yaml_doc kvs) st = (Ok tt, with_config (foldl merge_entry (config st) kvs) st).
Proof.
  induction kvs as [|[k v] kvs IH]; intros st; [by destruct st|].
  change (yaml_doc ((k, v) :: kvs)) with ((VStr k, v) :: yaml_doc kvs).
  cbn [merge_keys]. run_monad. rewrite IH. reflexivity.
Qed.

Lemma foldl_merge_entry_lookup key kvs c :
  foldl merge_entry c kvs !! key
  = match file_value key kvs with Some v => Some v | None => c !! key end.
Proof.
  induction kvs as [|[k v] kvs IH] using rev_ind; [done|].
  unfold file_value. rewrite !foldl_snoc. fold (file_value key kvs).
  unfold merge_entry at 1. cbn [fst snd].
  destruct (String.eqb_spec (snakecase k) key) as [<-|Hne].
  - by rewrite lookup_insert_eq.
  - by rewrite lookup_insert_ne.
Qed.

Lemma parse_yaml_file_run path kvs st :
  files st !! path = Some (Yaml (yaml_doc kvs)) ->
  parse_yaml_file path st = (Ok tt, with_config (foldl merge_entry (config st) kvs) st).
Proof.
  intros Hf. unfold parse_yaml_file, yaml_load. run_monad. rewrite Hf. run_monad.
  apply merge_keys_run.
Qed.

(** X2: On a config file with string keys [parse_yaml_file] returns normally,
    and for every key the Configuration then holds the value of the last
    entry whose key normalises to it, or, when there is none, the value it
    held before. *)
Theorem parse_yaml_file_last_writer (path : string) (kvs : list (string * value))
    (st : state) (key : string) :
  files st !! path = Some (Yaml (yaml_doc kvs)) ->
  exists st',
    parse_yaml_file path st = (Ok tt, st') /\
    config st' !! key
    = match file_value key kvs with Some v => Some v | None => config st !! key end.
Proof.
  intros Hf. eexists. split; [by apply parse_yaml_file_run|].
  apply foldl_merge_entry_lookup.
Qed.

(** X1: The precedence of the three sources, for an option that is applied with
    [add_arg_to_config] after the config file is merged into the defaults:
    the command-line value when it is truthy, else the config file's value
    when the file names the key, else the default. *)
Theorem three_source_precedence (path : string) (kvs : list (string * value))
    (st : state) (key : string) (arg : value) :
  config st = get_defaults ->
  files st !! path = Some (Yaml (yaml_doc kvs)) ->
  exists st',
    (parse_yaml_file path ;;; add_arg_to_config key arg) st = (Ok tt, st') /\
    config st' !! key
    = if truthy arg then Some arg
      else match file_value key kvs with
           | Some v => Some v
           | None => get_defaults !! key
           end.
Proof.
  intros Hcfg Hf. unfold bind. rewrite (parse_yaml_file_run path kvs st Hf).
  destruct (add_arg_to_config_lookup key arg
              (with_config (foldl merge_entry (config st) kvs) st)) as (st' & -> & Hk & _).
  exists st'. split; [done|]. rewrite Hk. destruct (truthy arg); [done|].
  cbn [config with_config]. rewrite foldl_merge_entry_lookup. by rewrite Hcfg.
Qed.

Lemma replace_no_char a b s :
  a <> b -> contains_str (String a "") (replace a b s) = false.
Proof.
  intros Hab. induction s as [|c s IH]; [done|].
  cbn [replace]. rewrite contains_str_cons.
  destruct (Ascii.eqb_spec c a) as [->|Hca].
  - destruct (ascii_dec a b); [done|]. exact IH.
  - destruct (ascii_dec a c); [congruence|]. exact IH.
Qed.

Lemma replace_absent a b s :
  contains_str (String a "") s = false -> replace a b s = s.
Proof.
  induction s as [|c s IH]; intros H; [done|].
  rewrite contains_str_cons in H. destruct (ascii_dec a c) as [|Hne]; [done|].
  cbn [replace]. destruct (Ascii.eqb_spec c a) as [->|_]; [done|]. by rewrite IH.
Qed.

(** X3: A stored key never holds a hyphen, and a key written without hyphens
    is stored as it is. *)
Theorem snakecase_no_hyphen (key : string) :
  contains_str "-" (snakecase key) = false /\
  (contains_str "-" key = false -> snakecase key = key).
Proof.
  unfold snakecase. rewrite lstrip_replace. split.
  - by apply replace_no_char.
  - apply replace_absent.
Qed.


(** ** Config-file discovery without an argument *)

(** X5: Without a config-file argument [look_for_config] never fails.  It
    records the working directory as [path_to_config]; when [config.yaml]
    is a file there, the joined path is recorded as [configfile] and
    returned; otherwise it returns the empty string, leaves [configfile]
    alone and prints a note that ends where the path should be. *)
Theorem look_for_config_default (e : env) (configfile_arg : value) (cwd : string)
    (st : state) :
  truthy configfile_arg = false ->
  let configfile := os_path_join cwd "config.yaml" in
  exists r st',
    look_for_config e configfile_arg cwd st = (Ok r, st') /\
    config st' !! "path_to_config" = Some (VStr cwd) /\
    stderr st' = stderr st /\
    if bool_decide (is_Some (files st !! configfile)) then
      r = configfile /\ config st' !! "configfile" = Some (VStr configfile) /\
      stdout st' = stdout st
    else
      r = "" /\ config st' !! "configfile" = config st !! "configfile" /\
      stdout st' = (stdout st ++ [cyan "Note: cannot find configfile at "])%list.
Proof.
  intros Harg configfile. unfold look_for_config. rewrite Harg.
  fold configfile. unfold os_path_isfile. run_monad.
  destruct (bool_decide (is_Some (files st !! configfile))); run_monad.
  - eexists _, _. split; [reflexivity|]. cbn [config stdout stderr].
    repeat split; by simplify_map_eq.
  - eexists _, _. split; [reflexivity|]. cbn [config stdout stderr].
    repeat split; by simplify_map_eq.
Qed.

(** ** Temporary directory: what every branch records *)

Lemma get_temp_dir_body_records e tempdir_arg no_temp_arg cwd st v o st1 :
  get_temp_dir_body e tempdir_arg no_temp_arg cwd st = (Ok (v, o), st1) ->
  config st1 !! "tempdir" = Some v /\
  config st1 !! "outdir" = config st !! "outdir".
Proof.
  unfold get_temp_dir_body, new_TemporaryDirectory. run_monad. intros H.
  repeat (case_match; simplify_eq; try done).
  all: repeat match goal with
         | Hm : mkdtemp _ _ _ = (Ok _, _) |- _ =>
             let Hd := fresh in let Hc := fresh in
             destruct (mkdtemp_creates _ _ _ _ _ Hm) as [Hd Hc]; clear Hm;
             cbn [config] in Hc
         end.
  all: cbn [config]; split; [by simplify_map_eq|].
  all: rewrite ?lookup_insert_ne by done; congruence.
Qed.

(** X11: Whenever [get_temp_dir] returns, the value it returns is the one the
    Configuration holds under [tempdir], and [outdir] is as before. *)
Theorem get_temp_dir_records (e : env) (tempdir_arg no_temp_arg : value) (cwd : string)
    (st st' : state) (v : value) :
  get_temp_dir e tempdir_arg no_temp_arg cwd st = (Ok v, st') ->
  config st' !! "tempdir" = Some v /\
  config st' !! "outdir" = config st !! "outdir".
Proof.
  unfold get_temp_dir, bind.
  destruct (get_temp_dir_body e tempdir_arg no_temp_arg cwd st) as [[[v0 o]|ex] st1] eqn:Hb;
    [|done].
  apply get_temp_dir_body_records in Hb as [Ht Ho].
  destruct o as [t|]; simpl; unfold ret; intros H; simplify_eq; cbn [config]; by split.
Qed.

Lemma first_free_spec taken dir names file :
  first_free taken dir names = Some file ->
  taken file = false /\ exists n, n ∈ names /\ file = os_path_join dir ("tmp" ++ n).
Proof.
  induction names as [|n names IH]; intros H; [done|]. simpl in H.
  destruct (taken (os_path_join dir ("tmp" ++ n))) eqn:Ht.
  - apply IH in H as (? & n' & ? & ?). split; [done|]. exists n'. split; [by right|done].
  - simplify_eq. split; [done|]. exists n. split; [by left|done].
Qed.

Lemma os_path_join_extends a b :
  startswith b "/" = false -> b <> "" ->
  exists y, y <> "" /\ os_path_join a b = a ++ y.
Proof.
  intros Hb Hne. unfold os_path_join. rewrite Hb.
  destruct (String.eqb a "" || endswith a "/").
  - by exists b.
  - exists ("/" ++ b). done.
Qed.

Lemma below_shorter d y : y <> "" -> below (d ++ y) d = false.
Proof.
  intros Hy. unfold below. apply orb_false_iff. split.
  - apply String.eqb_neq. intros H. apply (f_equal String.length) in H.
    rewrite length_append in H. destruct y; [done|]. simpl in H. lia.
  - destruct (startswith d ((d ++ y) ++ "/")) eqn:E; [|done].
    apply prefix_length in E. rewrite !length_append in E. simpl in E. lia.
Qed.

(** X12: With a temporary-directory argument and no-temp off, a call that
    returns has handed back a path directly inside the argument's directory,
    [tmp] followed by one of the candidate names, and the argument's
    directory itself is there afterwards. *)
Theorem get_temp_dir_explicit_parent (e : env) (a : string) (no_temp_arg : value)
    (cwd : string) (st st' : state) (no_temp v : value) :
  truthy no_temp_arg = false ->
  config st !! "no_temp" = Some no_temp ->
  truthy no_temp = false ->
  a <> "" ->
  get_temp_dir e (VStr a) no_temp_arg cwd st = (Ok v, st') ->
  let to_be_dir := os_path_join cwd (expanduser e a) in
  to_be_dir ∈ dirs st' /\
  exists n, n ∈ tmp_names e /\ v = VStr (os_path_join to_be_dir ("tmp" ++ n)).
Proof.
  intros Harg Hnt Hntv Ha Hrun to_be_dir.
  assert (truthy (VStr a) = true) as Hta.
  { simpl. by destruct (String.eqb_spec a ""). }
  revert Hrun. unfold get_temp_dir, get_temp_dir_body, new_TemporaryDirectory, drop_local,
    cleanup, rmtree, mkdtemp.
  run_monad. destruct (config st !! "outdir") as [outdir|]; [|done]. run_monad.
  rewrite Harg, Hnt. run_monad. rewrite Hntv, Hta. run_monad. fold to_be_dir.
  destruct (bool_decide (to_be_dir ∈ dirs st) || bool_decide (is_Some (files st !! to_be_dir)))
    eqn:Hex; run_monad; rewrite ?Hex; run_monad.
  - destruct (bool_decide (to_be_dir ∈ dirs st)) eqn:Hd.
    2:{ by destruct (bool_decide (is_Some (files st !! to_be_dir))). }
    apply bool_decide_eq_true_1 in Hd.
    destruct (first_free _ to_be_dir (tmp_names e)) as [file|] eqn:Hff; [|done].
    run_monad. intros H. simplify_eq.
    apply first_free_spec in Hff as (_ & n & Hn & ->).
    split; [|by exists n].
    destruct (os_path_join_extends to_be_dir ("tmp" ++ n)) as (y & Hy & ->); [done..|].
    apply elem_of_filter. split; [by apply below_shorter|set_solver].
  - rewrite bool_decide_eq_true_2 by set_solver.
    destruct (first_free _ to_be_dir (tmp_names e)) as [file|] eqn:Hff; [|done].
    run_monad. intros H. simplify_eq.
    apply first_free_spec in Hff as (_ & n & Hn & ->).
    split; [|by exists n].
    destruct (os_path_join_extends to_be_dir ("tmp" ++ n)) as (y & Hy & ->); [done..|].
    apply elem_of_filter. split; [by apply below_shorter|set_solver].
Qed.

(** ** Read-length bounds: order and range *)

Lemma sorted_Permutation_eq (l1 l2 : list Z) : l1 ≡ₚ l2 -> sorted l1 = sorted l2.
Proof.
  intros H. apply (StronglySorted_unique Z.le); [apply sorted_StronglySorted..|].
  by rewrite !sorted_Permutation.
Qed.

(** X16: The bounds do not depend on the order of the records in the file. *)
Theorem get_read_length_filter_order (st1 st2 : state) (genes : string)
    (records1 records2 : list SeqRecord) :
  config st1 = config st2 ->
  config st1 !! "genes" = Some (VStr genes) ->
  files st1 !! genes = Some (Fasta records1) ->
  files st2 !! genes = Some (Fasta records2) ->
  records1 ≡ₚ records2 ->
  (get_read_length_filter st1).1 = (get_read_length_filter st2).1 /\
  config (get_read_length_filter st1).2 = config (get_read_length_filter st2).2.
Proof.
  intros Hc Hg Hf1 Hf2 Hperm.
  assert (sorted (len <$> records1) = sorted (len <$> records2)) as Hs.
  { apply sorted_Permutation_eq. by rewrite Hperm. }
  unfold get_read_length_filter, SeqIO_parse. run_monad.
  rewrite <- Hc, Hg. run_monad. rewrite Hf1, Hf2. run_monad. rewrite <- Hs.
  destruct (sorted (len <$> records1)) as [|x l]; [done|].
  unfold first_item, last_item. run_monad.
  destruct (last (x :: l)); run_monad; by rewrite <- ?Hc.
Qed.

(** X17: The window is never empty: the lower bound is at least 0 and the upper
    bound lies at least 200 above it. *)
Theorem get_read_length_filter_window (st st' : state) :
  get_read_length_filter st = (Ok tt, st') ->
  exists lo hi,
    config st' !! "min_length" = Some (VInt lo) /\
    config st' !! "max_length" = Some (VInt hi) /\
    0 <= lo /\ lo + 200 <= hi.
Proof.
  unfold get_read_length_filter, SeqIO_parse. run_monad. intros H.
  destruct (config st !! "genes") as [[| | |genes| |]|]; try done. run_monad.
  revert H. run_monad.
  destruct (files st !! genes) as [[| |records|]|]; try done. run_monad.
  pose proof (sorted_StronglySorted (len <$> records)) as Hss.
  destruct (sorted (len <$> records)) as [|x l] eqn:Hs; [done|].
  unfold first_item, last_item. run_monad.
  destruct (last (x :: l)) as [z|] eqn:Hl; [|done]. run_monad.
  intros H. simplify_eq. exists x, (z + 200). cbn [config].
  split; [by simplify_map_eq|]. split; [by simplify_map_eq|].
  assert (x ∈ len <$> records) as Hx.
  { apply sorted_elem_of. rewrite Hs. by left. }
  apply list_elem_of_fmap in Hx as (r & -> & _).
  split; [unfold len; lia|].
  pose proof (StronglySorted_last _ _ Hss Hl (len r)) as Hle.
  specialize (Hle ltac:(by left)). lia.
Qed.

(** ** Read-path validation: the remaining branches *)

Lemma truthy_nonempty a : a <> "" -> truthy (VStr a) = true.
Proof. intros Ha. simpl. by destruct (String.eqb_spec a ""). Qed.

(** X18: With a read-directory argument only the existence of the joined path
    is tested, not its contents: an existing path is recorded as
    [read_path], a missing one ends the run with status -1, one message and
    the Configuration untouched. *)
Theorem look_for_basecalled_reads_argument (e : env) (a cwd : string) (st : state) :
  a <> "" ->
  let read_path := os_path_join cwd (expanduser e a) in
  look_for_basecalled_reads e (VStr a) cwd st
  = if bool_decide (read_path ∈ dirs st) || bool_decide (is_Some (files st !! read_path))
    then (Ok tt, with_config (<["read_path" := VStr read_path]> (config st)) st)
    else (Raise (SystemExit (-1)),
          State (config st) (dirs st) (files st) (stdout st)
            (stderr st ++ [cyan ("Error: cannot find reads at " ++ read_path ++ NL)])).
Proof.
  intros Ha read_path. unfold look_for_basecalled_reads.
  rewrite (truthy_nonempty a Ha). run_monad. fold read_path.
  by destruct (bool_decide (read_path ∈ dirs st) || bool_decide (is_Some (files st !! read_path))).
Qed.

(** X19: A read path taken from the Configuration is accepted when the scan
    below the config file's directory counts at least one fastq file.  The
    count is printed and the Configuration stays as it is: [read_path] keeps
    the value the config file gave, not the joined path. *)
Theorem look_for_basecalled_reads_config_found (e : env) (read_path_arg : value)
    (cwd a p : string) (st : state) :
  truthy read_path_arg = false ->
  config st !! "read_path" = Some (VStr a) ->
  a <> "" ->
  config st !! "path_to_config" = Some (VStr p) ->
  let fq_files := count_fastq (os_walk e (os_path_join p (expanduser e a))) in
  0 < fq_files ->
  look_for_basecalled_reads e read_path_arg cwd st
  = (Ok tt,
     State (config st) (dirs st) (files st)
       (stdout st ++ ["Found " ++ pretty fq_files ++ " fastq files in the input directory"])
       (stderr st)).
Proof.
  intros Harg Hc Ha Hp fq Hfq. unfold look_for_basecalled_reads. rewrite Harg. run_monad.
  rewrite Hc. rewrite bool_decide_eq_true_2 by eauto. run_monad.
  rewrite Hc. run_monad. rewrite (truthy_nonempty a Ha), Hp. run_monad. fold fq.
  by apply Z.ltb_lt in Hfq as ->.
Qed.

Lemma count_files_from (names : list string) (n : Z) :
  fold_left (fun fq_files fn => if is_fastq_name fn then fq_files + 1 else fq_files) names n
  = n + Z.of_nat (length (filter (fun fn => is_fastq_name fn = true) names)).
Proof.
  revert n. induction names as [|fn names IH]; intros n; simpl; [lia|].
  rewrite IH. rewrite filter_cons. destruct (is_fastq_name fn) eqn:E.
  - rewrite decide_True by done. simpl. lia.
  - rewrite decide_False by done. lia.
Qed.

(** X20: The scan counts, over all directories that [os.walk] yields, the file
    names whose lowered form ends in [.fastq] or [.fq]; directory names do
    not count. *)
Theorem count_fastq_filter (walk : list (string * list string * list string)) :
  count_fastq walk
  = Z.of_nat (length (filter (fun fn => is_fastq_name fn = true)
                             (concat (snd <$> walk)))).
Proof.
  unfold count_fastq.
  assert (forall n,
    fold_left (fun fq_files rdf =>
                 fold_left (fun fq_files fn =>
                              if is_fastq_name fn then fq_files + 1 else fq_files)
                           (snd rdf) fq_files) walk n
    = n + Z.of_nat (length (filter (fun fn => is_fastq_name fn = true)
                                   (concat (snd <$> walk))))) as H.
  { induction walk as [|rdf walk IH]; intros n; [simpl; lia|].
    rewrite fmap_cons. cbn [fold_left concat].
    rewrite IH, count_files_from, filter_app, length_app. lia. }
  rewrite H. lia.
Qed.

(** X21: The suffix test ignores case, and a compressed file does not pass it. *)
Theorem is_fastq_name_extensions (stem ext : string) :
  (lower ext = ".fastq" \/ lower ext = ".fq" -> is_fastq_name (stem ++ ext) = true) /\
  is_fastq_name (stem ++ ".fastq.gz") = false /\
  is_fastq_name (stem ++ ".fq.gz") = false.
Proof.
  unfold is_fastq_name. split; [|split].
  - rewrite lower_append. intros [-> | ->]; rewrite endswith_append; by rewrite ?orb_true_r.
  - rewrite lower_append.
    change (lower ".fastq.gz") with (".fastq.g" ++ "z").
    rewrite <- append_assoc.
    rewrite (endswith_last_ne _ "z" "q" ".fast") by done.
    by rewrite (endswith_last_ne _ "z" "q" ".f") by done.
  - rewrite lower_append.
    change (lower ".fq.gz") with (".fq.g" ++ "z").
    rewrite <- append_assoc.
    rewrite (endswith_last_ne _ "z" "q" ".fast") by done.
    by rewrite (endswith_last_ne _ "z" "q" ".f") by done.
Qed.

(** ** Barcode CSV validation: the remaining branches *)

Lemma collect_barcodes_ok rows : forall new acc st,
  Forall2 (fun row b => row !! "barcode" = Some (VStr b) /\ has_barcode_prefix b) rows new ->
  collect_barcodes rows acc st = (Ok (acc ++ new)%list, st).
Proof.
  induction rows as [|row rows IH]; intros new acc st H.
  - apply Forall2_nil_inv_l in H as ->. simpl. by rewrite app_nil_r.
  - apply Forall2_cons_inv_l in H as (b & new' & [Hb Hp] & H & ->).
    simpl. rewrite Hb.
    replace (startswith b "NB" || startswith b "BC") with true.
    2:{ symmetry. by apply orb_true_iff. }
    rewrite (IH new' _ st H). by rewrite <- app_assoc.
Qed.

(** X22: The loop over the rows returns a list exactly when every row's
    [barcode] cell is text starting with [NB] or [BC]; the list is then
    those cells in row order, behind what was collected before, and the
    state is untouched. *)
Theorem collect_barcodes_complete (rows : list (gmap string value)) (acc bs : list string)
    (st st' : state) :
  collect_barcodes rows acc st = (Ok bs, st') <->
  st' = st /\
  exists new,
    bs = (acc ++ new)%list /\
    Forall2 (fun row b => row !! "barcode" = Some (VStr b) /\ has_barcode_prefix b) rows new.
Proof.
  split.
  - intros H. apply collect_barcodes_accepts in H as (-> & new & -> & Hall & Hrows).
    split; [done|]. exists new. split; [done|].
    clear -Hall Hrows. induction Hrows; [constructor|].
    apply Forall_cons in Hall as [? ?]. constructor; auto.
  - intros (-> & new & -> & H). by apply collect_barcodes_ok.
Qed.

Lemma os_path_join_nonempty a b : b <> "" -> os_path_join a b <> "".
Proof.
  intros Hb. unfold os_path_join. destruct (startswith b "/"); [done|].
  destruct (String.eqb a "" || endswith a "/").
  - by apply append_nonempty_r.
  - apply append_nonempty_r. by apply append_nonempty_r.
Qed.

(** X23: A CSV without the [barcode] column ends the run with status -1 before
    any row is looked at. *)
Theorem look_for_barcodes_csv_missing_header (e : env) (a cwd : string)
    (column_names : list string) (rows : list (gmap string value)) (st : state) :
  a <> "" ->
  let barcodes_csv := os_path_join cwd a in
  files st !! barcodes_csv = Some (Csv (Some column_names) rows) ->
  "barcode" ∉ column_names ->
  look_for_barcodes_csv e (VStr a) cwd st
  = (Raise (SystemExit (-1)),
     State (config st) (dirs st) (files st)
       (stdout st ++ ["Input barcodes csv file: " ++ barcodes_csv])
       (stderr st ++ ["Error: Barcode file missing header field `barcode`" ++ NL])).
Proof.
  intros Ha barcodes_csv Hf Hcol.
  unfold look_for_barcodes_csv, look_for_barcodes_csv_body, csv_DictReader.
  rewrite (truthy_nonempty a Ha). run_monad. fold barcodes_csv. rewrite Hf.
  rewrite (bool_decide_eq_true_2 (is_Some (Some _))) by eauto.
  rewrite orb_true_r. run_monad.
  assert (truthy (VStr barcodes_csv) = true) as ->.
  { apply truthy_nonempty. by apply os_path_join_nonempty. }
  run_monad. rewrite Hf. run_monad.
  by rewrite bool_decide_eq_false_2.
Qed.

(** X24: With no barcode CSV at all, neither as argument nor as a non-empty
    value in the Configuration, the call is not an error: it sets
    [barcodes_csv] to the empty string, prints two lines and returns. *)
Theorem look_for_barcodes_csv_none_supplied (e : env) (barcodes_csv_arg : value)
    (cwd : string) (st : state) :
  truthy barcodes_csv_arg = false ->
  (config st !! "barcodes_csv" = None \/
   exists v, config st !! "barcodes_csv" = Some v /\ truthy v = false) ->
  look_for_barcodes_csv e barcodes_csv_arg cwd st
  = (Ok VNone,
     State (<["barcodes_csv" := VStr ""]> (config st)) (dirs st) (files st)
       (stdout st ++ ["Input barcodes csv file: "; green "No barcodes csv file input"])
       (stderr st)).
Proof.
  intros Harg Hc.
  unfold look_for_barcodes_csv, look_for_barcodes_csv_body. rewrite Harg. run_monad.
  destruct Hc as [Hc|(v & Hc & Hv)]; rewrite Hc.
  - rewrite bool_decide_eq_false_2 by (by intros [? ?]). run_monad.
    change (truthy (VStr "")) with false. run_monad. by rewrite <- app_assoc.
  - rewrite bool_decide_eq_true_2 by eauto. run_monad. rewrite Hc. run_monad.
    rewrite Hv. run_monad.
    change (truthy (VStr "")) with false. run_monad. by rewrite <- app_assoc.
Qed.


(** ** The theorems above at concrete inputs *)





Lemma get_package_data_accepts_witness :
  exists st',
    get_package_data posix_host "/opt/site-packages/peaclock" (VStr "mus") initial_state
    = (Ok tt, st') /\
    config st' !! "matrix_file"
    = Some (VStr "/opt/site-packages/peaclock/substitution_matrix.txt") /\
    config st' !! "species" = Some (VStr "mus") /\
    config st' !! "cpg_sites"
    = Some (VStr "/opt/site-packages/peaclock/data/mus/cpg_sites.csv") /\
    config st' !! "genes"
    = Some (VStr "/opt/site-packages/peaclock/data/mus/genes.fasta") /\
    config st' !! "primer_sequences"
    = Some (VStr "/opt/site-packages/peaclock/data/mus/primer_sequences.csv").
Proof.
  apply (get_package_data_accepts posix_host "/opt/site-packages/peaclock" "mus"
           (VStr "mus") ["apodemus"; "mus"; "phalacrocorax"] initial_state).
  - reflexivity.
  - reflexivity.
  - apply elem_of_cons. right. apply elem_of_cons. left. reflexivity.
Defined.

Lemma get_package_data_rejects_witness :
  exists st' msg,
    get_package_data posix_host "/opt/site-packages/peaclock" (VStr "cat") initial_state
    = (Raise (SystemExit (-1)), st') /\
    stderr st' = (stderr initial_state ++ [msg])%list /\
    config st' !! "matrix_file"
    = Some (VStr "/opt/site-packages/peaclock/substitution_matrix.txt") /\
    config st' !! "species" = Some (VStr "cat") /\
    config st' !! "genes" = config initial_state !! "genes".
Proof.
  apply (get_package_data_rejects posix_host "/opt/site-packages/peaclock" "cat"
           (VStr "cat") ["apodemus"; "mus"; "phalacrocorax"] initial_state).
  - reflexivity.
  - reflexivity.
  - intros H. repeat (apply elem_of_cons in H as [H|H]; [discriminate|]).
    by apply elem_of_nil in H.
Defined.

Lemma get_package_data_defaults_witness :
  (get_package_data posix_host "/opt/site-packages/peaclock" (VStr "mus") initial_state).1
  = Ok tt.
Proof.
  apply (get_package_data_defaults posix_host "/opt/site-packages/peaclock" "m" "us"
           initial_state).
  - reflexivity.
  - right. left. reflexivity.
Defined.


Lemma colour_passthrough_witness :
  colour "Output dir:" "magenta" = "Output dir:" /\
  colour "Output dir:" "Bold Red" <> "Output dir:".
Proof.
  split.
  - apply (proj1 (colour_passthrough "Output dir:" "magenta")). reflexivity.
  - apply (proj2 (colour_passthrough "Output dir:" "Bold Red")). reflexivity.
Defined.

Lemma parse_yaml_file_last_writer_witness :
  exists st',
    parse_yaml_file "/work/run.yaml" (with_files more_files initial_state) = (Ok tt, st') /\
    config st' !! "read_dir" = Some (VStr "second").
Proof.
  apply (parse_yaml_file_last_writer "/work/run.yaml"
           [("species", VStr "mus"); ("read-dir", VStr "first");
            ("read_dir", VStr "second"); ("output-prefix", VStr "run")]
           (with_files more_files initial_state) "read_dir").
  reflexivity.
Defined.

Lemma three_source_precedence_witness :
  exists st',
    (parse_yaml_file "/work/run.yaml" ;;; add_arg_to_config "species" VNone)
      (with_files more_files initial_state) = (Ok tt, st') /\
    config st' !! "species" = Some (VStr "mus").
Proof.
  apply (three_source_precedence "/work/run.yaml"
           [("species", VStr "mus"); ("read-dir", VStr "first");
            ("read_dir", VStr "second"); ("output-prefix", VStr "run")]
           (with_files more_files initial_state) "species" VNone).
  - reflexivity.
  - reflexivity.
Defined.

Lemma snakecase_no_hyphen_witness :
  contains_str "-" (snakecase "--read-dir") = false /\ snakecase "read_dir" = "read_dir".
Proof.
  split.
  - apply (proj1 (snakecase_no_hyphen "--read-dir")).
  - apply (proj2 (snakecase_no_hyphen "read_dir")). reflexivity.
Defined.


Lemma look_for_config_default_witness :
  exists r st',
    look_for_config posix_env VNone "/work" initial_state = (Ok r, st') /\
    config st' !! "path_to_config" = Some (VStr "/work") /\
    stderr st' = stderr initial_state /\
    r = "" /\ config st' !! "configfile" = config initial_state !! "configfile" /\
    stdout st' = (stdout initial_state ++ [cyan "Note: cannot find configfile at "])%list.
Proof.
  exact (look_for_config_default posix_env VNone "/work" initial_state eq_refl).
Defined.

Lemma get_temp_dir_records_witness :
  config (get_temp_dir posix_env (VStr "") (VBool false) "/work" resolved_state).2
    !! "tempdir" = Some (VStr "/tmp/tmpa1b2c3d4") /\
  config (get_temp_dir posix_env (VStr "") (VBool false) "/work" resolved_state).2
    !! "outdir" = config resolved_state !! "outdir".
Proof.
  apply (get_temp_dir_records posix_env (VStr "") (VBool false) "/work" resolved_state).
  reflexivity.
Defined.

Lemma get_temp_dir_explicit_parent_witness :
  "/work/scratch"
    ∈ dirs (get_temp_dir posix_env (VStr "scratch") VNone "/work" resolved_state).2 /\
  exists n, n ∈ ["a1b2c3d4"; "e5f6g7h8"] /\
    VStr "/work/scratch/tmpa1b2c3d4" = VStr (os_path_join "/work/scratch" ("tmp" ++ n)).
Proof.
  apply (get_temp_dir_explicit_parent posix_env "scratch" VNone "/work" resolved_state
           (get_temp_dir posix_env (VStr "scratch") VNone "/work" resolved_state).2
           (VBool false) (VStr "/work/scratch/tmpa1b2c3d4")).
  - reflexivity.
  - reflexivity.
  - reflexivity.
  - discriminate.
  - reflexivity.
Defined.

Lemma get_read_length_filter_order_witness :
  (get_read_length_filter resolved_state).1
  = (get_read_length_filter (with_files more_files resolved_state)).1 /\
  config (get_read_length_filter resolved_state).2
  = config (get_read_length_filter (with_files more_files resolved_state)).2.
Proof.
  apply (get_read_length_filter_order resolved_state (with_files more_files resolved_state)
           "/work/genes.fasta"
           [ {| rec_id := "gene1"; rec_seq := seq_of_length 220 |};
             {| rec_id := "gene2"; rec_seq := seq_of_length 180 |} ]
           [ {| rec_id := "gene2"; rec_seq := seq_of_length 180 |};
             {| rec_id := "gene1"; rec_seq := seq_of_length 220 |} ]).
  - reflexivity.
  - reflexivity.
  - reflexivity.
  - reflexivity.
  - apply perm_swap.
Defined.

Lemma get_read_length_filter_window_witness :
  exists lo hi,
    config (get_read_length_filter resolved_state).2 !! "min_length" = Some (VInt lo) /\
    config (get_read_length_filter resolved_state).2 !! "max_length" = Some (VInt hi) /\
    0 <= lo /\ lo + 200 <= hi.
Proof.
  apply (get_read_length_filter_window resolved_state).
  reflexivity.
Defined.

Lemma look_for_basecalled_reads_argument_witness :
  look_for_basecalled_reads posix_env (VStr "reads") "/work" initial_state
  = (Ok tt, with_config (<["read_path" := VStr "/work/reads"]> get_defaults) initial_state) /\
  (look_for_basecalled_reads posix_env (VStr "nowhere") "/work" initial_state).1
  = Raise (SystemExit (-1)).
Proof.
  split.
  - exact (look_for_basecalled_reads_argument posix_env "reads" "/work" initial_state
             ltac:(discriminate)).
  - rewrite (look_for_basecalled_reads_argument posix_env "nowhere" "/work" initial_state
               ltac:(discriminate)).
    reflexivity.
Defined.

Lemma look_for_basecalled_reads_config_found_witness :
  let st := with_config (<["read_path" := VStr "reads"]> (config resolved_state))
                        resolved_state in
  look_for_basecalled_reads posix_env VNone "/work" st
  = (Ok tt, State (config st) (dirs st) (files st)
              ["Found 2 fastq files in the input directory"] []).
Proof.
  apply (look_for_basecalled_reads_config_found posix_env VNone "/work" "reads" "/work"
           (with_config (<["read_path" := VStr "reads"]> (config resolved_state))
                        resolved_state)).
  - reflexivity.
  - reflexivity.
  - discriminate.
  - reflexivity.
  - reflexivity.
Defined.

Lemma is_fastq_name_extensions_witness :
  is_fastq_name "reads_01.FastQ" = true /\ is_fastq_name "reads_01.fastq.gz" = false.
Proof.
  split.
  - apply (proj1 (is_fastq_name_extensions "reads_01" ".FastQ")). left. reflexivity.
  - apply (proj1 (proj2 (is_fastq_name_extensions "reads_01" ""))).
Defined.

Lemma look_for_barcodes_csv_missing_header_witness :
  look_for_barcodes_csv posix_env (VStr "samples.csv") "/work"
    (with_files more_files initial_state)
  = (Raise (SystemExit (-1)),
     State get_defaults (dirs initial_state) more_files
       ["Input barcodes csv file: /work/samples.csv"]
       ["Error: Barcode file missing header field `barcode`" ++ NL]).
Proof.
  apply (look_for_barcodes_csv_missing_header posix_env "samples.csv" "/work"
           ["sample"; "id"] [ {[ "sample" := VStr "s1"; "id" := VStr "NB01" ]} ]
           (with_files more_files initial_state)).
  - discriminate.
  - reflexivity.
  - intros H. repeat (apply elem_of_cons in H as [H|H]; [discriminate|]).
    by apply elem_of_nil in H.
Defined.

Lemma look_for_barcodes_csv_none_supplied_witness :
  look_for_barcodes_csv posix_env VNone "/work" initial_state
  = (Ok VNone,
     State (<["barcodes_csv" := VStr ""]> get_defaults) (dirs initial_state)
       (files initial_state)
       ["Input barcodes csv file: "; green "No barcodes csv file input"] []).
Proof.
  apply (look_for_barcodes_csv_none_supplied posix_env VNone "/work" initial_state).
  - reflexivity.
  - left. reflexivity.
Defined.


Lemma look_for_barcodes_csv_stores_nothing_witness :
  VNone = VNone /\
  (config (look_for_barcodes_csv posix_env (VStr "barcodes.csv") "/work" initial_state).2
   = config initial_state \/
   config (look_for_barcodes_csv posix_env (VStr "barcodes.csv") "/work" initial_state).2
   = <["barcodes_csv" := VStr ""]> (config initial_state)).
Proof.
  apply (look_for_barcodes_csv_stores_nothing posix_env (VStr "barcodes.csv") "/work"
           initial_state VNone
           (look_for_barcodes_csv posix_env (VStr "barcodes.csv") "/work" initial_state).2).
  reflexivity.
Defined.
